(** * sdc11073.mdib.providerwaveform: waveform sampling and annotation

    A shallow embedding of [src/sdc11073/mdib/providerwaveform.py] and the
    properties of its sample arrays, annotators, sample-array generators and
    of the default waveform source.

    Modelling conventions.
    - Python [float] time stamps, sample periods and sample values are
      modelled as exact rationals ([Q]); rounding of binary floating point is
      not part of the model.  Comparisons are the boolean comparisons of [Q].
    - Python [int] is [Z]; [len] is [Z.of_nat (length _)].
    - Objects that are shared and mutated in place ([RtSampleArray]) live in
      an object store and are referred to by their position in it.
    - Python dictionaries are association lists that keep insertion order
      and update an existing key in place.
    - Exceptions are an explicit result type. *)

From Stdlib Require Import List String ZArith QArith Qround Lia Lqa Bool.
Import ListNotations.

Local Open Scope string_scope.
Local Open Scope list_scope.
Local Open Scope Z_scope.
Local Open Scope Q_scope.

(** ** Python numerics *)

Module Py.

(** [a < b] on floats. *)
Definition lt (a b : Q) : bool := negb (Qle_bool b a).

(** [a >= b] on floats. *)
Definition ge (a b : Q) : bool := Qle_bool b a.

(** [a <= b] on floats. *)
Definition le (a b : Q) : bool := Qle_bool a b.

(** [a > b] on floats. *)
Definition gt (a b : Q) : bool := negb (Qle_bool a b).

(** [int(x)]: truncation toward zero. *)
Definition int (x : Q) : Z := Z.quot (Qnum x) (Zpos (Qden x)).

(** [x % 1]: Python's modulo takes the sign of the divisor, so this is the
    distance of [x] to the integer below it. *)
Definition mod1 (x : Q) : Q := x - inject_Z (Qfloor x).

(** Truthiness of a float: [0.0] is falsy. *)
Definition truthy (x : Q) : bool := negb (Qeq_bool x 0).

(** [len(l)]. *)
Definition len {A : Type} (l : list A) : Z := Z.of_nat (List.length l).

End Py.

(** ** Types of the data model (pm_types) *)

(** Modelled from the spec: [pm_types.ComponentActivation] is declared
    outside this module; the spec gives its values. *)
Inductive ComponentActivation : Type :=
| ON | OFF | STANDBY | NOT_READY | FAILURE.

Definition ComponentActivation_eqb (a b : ComponentActivation) : bool :=
  match a, b with
  | ON, ON | OFF, OFF | STANDBY, STANDBY
  | NOT_READY, NOT_READY | FAILURE, FAILURE => true
  | _, _ => false
  end.

(** Modelled from the spec: [pm_types.Annotation] is an opaque payload; it is
    represented by the text of its code. *)
Definition Annotation : Type := string.

(** [pm_types.ApplyAnnotation(annotation_index, sample_index)]. *)
Record ApplyAnnotation : Type := {
  AnnotationIndex : Z;
  SampleIndex : Z
}.

(** ** Exceptions *)

Inductive PyError : Type :=
| KeyError
| ZeroDivisionError
| TypeError
| AttributeError
| InvalidReference.
(** [InvalidReference] is not a Python exception: it marks a reference to
    a position outside the object store, which no operation creates. *)

Inductive Result (A : Type) : Type :=
| Ok (a : A)
| Raise (e : PyError).
Arguments Ok {A} a.
Arguments Raise {A} e.

(** ** Dictionaries *)

Module Dict.

Definition t (V : Type) : Type := list (string * V).

(** [d.get(k)] *)
Fixpoint get {V : Type} (k : string) (d : t V) : option V :=
  match d with
  | [] => None
  | (k', v) :: rest => if String.eqb k k' then Some v else get k rest
  end.

(** [k in d] *)
Definition mem {V : Type} (k : string) (d : t V) : bool :=
  match get k d with Some _ => true | None => false end.

(** [d[k] = v]: an existing key keeps its place, a new key goes last. *)
Fixpoint set {V : Type} (k : string) (v : V) (d : t V) : t V :=
  match d with
  | [] => [(k, v)]
  | (k', v') :: rest =>
      if String.eqb k k' then (k', v) :: rest else (k', v') :: set k v rest
  end.

Definition keys {V : Type} (d : t V) : list string := map fst d.

End Dict.

(** ** RtSampleArray *)

Module RtSampleArray.

Record t : Type := {
  determination_time : option Q;
  sample_period : Q;
  samples : list Q;
  activation_state : ComponentActivation;
  annotations : list Annotation;
  apply_annotations : list ApplyAnnotation
}.

Definition __init__ (determination_time : option Q) (sample_period : Q)
    (samples : list Q) (activation_state : ComponentActivation) : t :=
  {| determination_time := determination_time;
     sample_period := sample_period;
     samples := samples;
     activation_state := activation_state;
     annotations := [];
     apply_annotations := [] |}.

(** The two range checks come first; the division is only reached behind
    them. *)
Definition _nearest_index (self : t) (timestamp : Q) : option Z :=
  match determination_time self with
  | None => None
  | Some det =>
      if Py.lt timestamp (det - sample_period self * (1 # 2)) then None
      else if Py.ge timestamp
                (det + inject_Z (Py.len (samples self)) * sample_period self
                 + sample_period self * (1 # 2)) then None
      else
        let pos := (timestamp - det) / sample_period self in
        Some (if Py.ge (Py.mod1 pos) (1 # 2)
              then (Py.int pos + 1)%Z else Py.int pos)
  end.

(** One turn of the loop of [add_annotations_at]; the loop state is the
    list [apply_annotations] and the flag [applied]. *)
Definition add_annotations_step (self : t) (annotation_index : Z)
    (st : list ApplyAnnotation * bool) (timestamp : Q)
    : list ApplyAnnotation * bool :=
  match _nearest_index self timestamp with
  | Some i =>
      (fst st
         ++ [{| AnnotationIndex := annotation_index; SampleIndex := i |}],
       true)
  | None => st
  end.

(** [_nearest_index] reads the determination time, the period and the
    samples only, and the loop changes none of them. *)
Definition add_annotations_at (self : t) (annotation : Annotation)
    (timestamps : list Q) : t :=
  let annotation_index := Py.len (annotations self) in
  let '(applies, applied) :=
    fold_left (add_annotations_step self annotation_index) timestamps
              (apply_annotations self, false) in
  {| determination_time := determination_time self;
     sample_period := sample_period self;
     samples := samples self;
     activation_state := activation_state self;
     annotations := if applied then annotations self ++ [annotation]
                    else annotations self;
     apply_annotations := applies |}.

End RtSampleArray.

(** ** Annotator *)

Module Annotator.

Record t : Type := {
  annotation : Annotation;
  trigger_handle : string;
  annotated_handles : list string;
  _last_value : Q
}.

Definition __init__ (annotation : Annotation) (trigger_handle : string)
    (annotated_handles : list string) : t :=
  {| annotation := annotation;
     trigger_handle := trigger_handle;
     annotated_handles := annotated_handles;
     _last_value := 0 |}.

Definition set_last_value (self : t) (v : Q) : t :=
  {| annotation := annotation self;
     trigger_handle := trigger_handle self;
     annotated_handles := annotated_handles self;
     _last_value := v |}.

(** The loop over [enumerate(rt_sample_array.samples)], from index [i] on:
    [ret] is the list built so far and [last_value] is [self._last_value].
    Adding to a determination time that is [None] raises [TypeError]. *)
Fixpoint timestamps_loop (det : option Q) (period : Q) (i : Z)
    (rest : list Q) (ret : list Q) (last_value : Q)
    : Result (list Q * Q) :=
  match rest with
  | [] => Ok (ret, last_value)
  | rt_sample :: rest' =>
      if Py.le last_value 0 && Py.gt rt_sample 0 then
        match det with
        | None => Raise TypeError
        | Some d =>
            timestamps_loop det period (i + 1) rest'
              (ret ++ [d + inject_Z i * period]) rt_sample
        end
      else timestamps_loop det period (i + 1) rest' ret rt_sample
  end.

(** Returns the time stamps and the annotator with its new [_last_value]. *)
Definition get_annotation_timestamps (self : t)
    (rt_sample_array : RtSampleArray.t) : Result (list Q * t) :=
  match timestamps_loop (RtSampleArray.determination_time rt_sample_array)
          (RtSampleArray.sample_period rt_sample_array) 0
          (RtSampleArray.samples rt_sample_array) [] (_last_value self) with
  | Ok (ret, last_value) => Ok (ret, set_last_value self last_value)
  | Raise e => Raise e
  end.

End Annotator.

(** ** Collaborators declared outside this module *)

(** A reference to an object of the store: its position in it. *)
Definition Ref : Type := nat.

Module WaveformGenerator.

(** Modelled from the spec: [WaveformGeneratorBase] (provider.waveforms) has
    a fixed [sampleperiod] and an operation that produces the next [count]
    values of its signal, in order.  The signal is an endless sequence and
    the generator keeps its position in it. *)
Record t : Type := {
  sampleperiod : Q;
  signal : nat -> Q;
  position : nat
}.

Definition next_samples (self : t) (count : Z) : list Q * t :=
  let n := Z.to_nat count in
  (map (signal self) (seq (position self) n),
   {| sampleperiod := sampleperiod self;
      signal := signal self;
      position := (position self + n)%nat |}).

End WaveformGenerator.

(** A list attribute of a host record: a list of its own, or the very list
    object held by the [RtSampleArray] at a reference (assignment of a list
    in Python shares the object). *)
Inductive ListObj (A : Type) : Type :=
| Fresh (l : list A)
| FieldOf (r : Ref).
Arguments Fresh {A} l.
Arguments FieldOf {A} r.

Module MetricValue.

(** Modelled from the spec: the value part of a channel's writable state
    record (samples, determination time, annotations). *)
Record t : Type := {
  Samples : list Q;
  DeterminationTime : option Q;
  Annotation : ListObj string;
  ApplyAnnotation : ListObj ApplyAnnotation
}.

Definition empty : t :=
  {| Samples := []; DeterminationTime := None;
     Annotation := Fresh []; ApplyAnnotation := Fresh [] |}.

End MetricValue.

Module StateContainer.

(** Modelled from the spec: [RealTimeSampleArrayMetricStateContainer], a
    channel's writable state record. *)
Record t : Type := {
  DescriptorHandle : string;
  ActivationState : ComponentActivation;
  MetricValue : option MetricValue.t
}.

(** [state.mk_metric_value()] *)
Definition mk_metric_value (self : t) : t :=
  {| DescriptorHandle := DescriptorHandle self;
     ActivationState := ActivationState self;
     MetricValue := Some MetricValue.empty |}.

Definition set_MetricValue (self : t) (v : option MetricValue.t) : t :=
  {| DescriptorHandle := DescriptorHandle self;
     ActivationState := ActivationState self;
     MetricValue := v |}.

Definition set_ActivationState (self : t) (s : ComponentActivation) : t :=
  {| DescriptorHandle := DescriptorHandle self;
     ActivationState := s;
     MetricValue := MetricValue self |}.

End StateContainer.

Module DescriptorContainer.

(** Modelled from the spec: a channel's structural descriptor, which
    declares the sample period. *)
Record t : Type := {
  Handle : string;
  SamplePeriod : Q
}.

End DescriptorContainer.

(** What is written into the host through a transaction, in the order of
    the writes. *)
Inductive HostWrite : Type :=
| DescriptorWrite (handle : string) (sample_period : Q)
| ActivationWrite (handle : string) (state : ComponentActivation)
| ValueWrite (handle : string) (sample_period : Q).

Module ProviderMdib.

(** Modelled from the spec: the host model holds one descriptor and one
    state record per channel, found by handle. *)
Record t : Type := {
  descriptions : list DescriptorContainer.t;
  states : list StateContainer.t
}.

Definition find_descriptor (h : string) (m : t)
    : option DescriptorContainer.t :=
  find (fun d => String.eqb h (DescriptorContainer.Handle d))
       (descriptions m).

Definition find_state (h : string) (l : list StateContainer.t)
    : option StateContainer.t :=
  find (fun s => String.eqb h (StateContainer.DescriptorHandle s)) l.

(** The descriptor of [h] declares the period [p] from now on. *)
Definition put_sample_period (h : string) (p : Q) (m : t) : t :=
  {| descriptions :=
       map (fun d =>
              if String.eqb h (DescriptorContainer.Handle d)
              then {| DescriptorContainer.Handle := DescriptorContainer.Handle d;
                      DescriptorContainer.SamplePeriod := p |}
              else d) (descriptions m);
     states := states m |}.

(** The state record [s] replaces the one with its handle. *)
Definition put_state (s : StateContainer.t) (m : t) : t :=
  {| descriptions := descriptions m;
     states :=
       map (fun s' =>
              if String.eqb (StateContainer.DescriptorHandle s)
                            (StateContainer.DescriptorHandle s')
              then s else s') (states m) |}.

End ProviderMdib.

(** ** The world around the waveform source *)

(** The object store of the sample arrays, the wall clock ([time.time()]
    returns [clock ticks] at its [ticks]-th call), the host model and the
    journal of the writes made into it. *)
Record World : Type := {
  heap : list RtSampleArray.t;
  clock : nat -> Q;
  ticks : nat;
  mdib : ProviderMdib.t;
  journal : list HostWrite
}.

(** Computations that read and change the world and may raise. *)
Definition M (A : Type) : Type := World -> Result (A * World).

Definition ret {A : Type} (a : A) : M A := fun w => Ok (a, w).

Definition bind {A B : Type} (c : M A) (k : A -> M B) : M B :=
  fun w => match c w with
           | Ok (a, w') => k a w'
           | Raise e => Raise e
           end.

Definition raise {A : Type} (e : PyError) : M A := fun _ => Raise e.

Notation "x <- c ;; k" := (bind c (fun x => k))
  (at level 61, c at next level, right associativity).
Notation "' pat <- c ;; k" := (bind c (fun x => let pat := x in k))
  (at level 61, pat pattern, c at next level, right associativity).
Notation "c ;;; k" := (bind c (fun _ => k))
  (at level 61, right associativity).

(** [time.time()] *)
Definition time_time : M Q :=
  fun w => Ok (clock w (ticks w),
               {| heap := heap w; clock := clock w; ticks := S (ticks w);
                  mdib := mdib w; journal := journal w |}).

(** A new [RtSampleArray] object. *)
Definition new_object (b : RtSampleArray.t) : M Ref :=
  fun w => Ok (List.length (heap w),
               {| heap := heap w ++ [b]; clock := clock w; ticks := ticks w;
                  mdib := mdib w; journal := journal w |}).

(** The object behind a reference. *)
Definition deref (r : Ref) : M RtSampleArray.t :=
  fun w => match nth_error (heap w) r with
           | Some b => Ok (b, w)
           | None => Raise InvalidReference
           end.

Fixpoint list_update {A : Type} (l : list A) (n : nat) (f : A -> A) : list A :=
  match l, n with
  | [], _ => []
  | x :: rest, O => f x :: rest
  | x :: rest, S n' => x :: list_update rest n' f
  end.

(** A method call that changes the object behind a reference in place. *)
Definition mutate (r : Ref) (f : RtSampleArray.t -> RtSampleArray.t) : M unit :=
  fun w => match nth_error (heap w) r with
           | Some _ =>
               Ok (tt, {| heap := list_update (heap w) r f; clock := clock w;
                          ticks := ticks w; mdib := mdib w;
                          journal := journal w |})
           | None => Raise InvalidReference
           end.

Definition get_mdib : M ProviderMdib.t := fun w => Ok (mdib w, w).

Definition set_mdib (m : ProviderMdib.t) : M unit :=
  fun w => Ok (tt, {| heap := heap w; clock := clock w; ticks := ticks w;
                      mdib := m; journal := journal w |}).

Definition log (e : HostWrite) : M unit :=
  fun w => Ok (tt, {| heap := heap w; clock := clock w; ticks := ticks w;
                      mdib := mdib w; journal := journal w ++ [e] |}).

(** ** Host transactions *)

Module Transaction.

(** Modelled from the spec: [mdib.descriptions.handle.get_one(handle)]
    gives the descriptor of a channel and raises when there is none. *)
Definition get_one (h : string) : M DescriptorContainer.t :=
  m <- get_mdib ;;
  match ProviderMdib.find_descriptor h m with
  | Some d => ret d
  | None => raise KeyError
  end.

(** Modelled from the spec: the scope
    [with mdib.transaction_manager() as mgr] in which the descriptor of [h]
    is fetched and its [SamplePeriod] is set; leaving the scope commits. *)
Definition write_sample_period (h : string) (p : Q) : M unit :=
  m <- get_mdib ;;
  match ProviderMdib.find_descriptor h m with
  | Some _ =>
      set_mdib (ProviderMdib.put_sample_period h p m) ;;;
      log (DescriptorWrite h p)
  | None => raise KeyError
  end.

(** Modelled from the spec: [mgr.get_state(handle)] inside such a scope.
    What the host does for a handle without a state record is not decided in
    this module; here the call raises, and no property below relies on which
    exception that is. *)
Definition get_state (h : string) : M StateContainer.t :=
  m <- get_mdib ;;
  match ProviderMdib.find_state h (ProviderMdib.states m) with
  | Some s => ret s
  | None => raise KeyError
  end.

(** Leaving the scope commits the state record fetched in it. *)
Definition commit_state (s : StateContainer.t) : M unit :=
  m <- get_mdib ;;
  set_mdib (ProviderMdib.put_state s m).

End Transaction.

Module RtDataMdibUpdateTransaction.

(** Modelled from the spec: the write scope handed to the update cycle.  It
    holds the state records fetched through it; the caller commits it. *)
Record t : Type := {
  rt_sample_state_updates : list StateContainer.t
}.

Definition __init__ : t := {| rt_sample_state_updates := [] |}.

(** The working copy of the state record of [h]. *)
Definition get_real_time_sample_array_metric_state (self : t) (h : string)
    : M StateContainer.t :=
  Transaction.get_state h.

(** The working copy as the cycle left it. *)
Definition keep (self : t) (s : StateContainer.t) : t :=
  {| rt_sample_state_updates := rt_sample_state_updates self ++ [s] |}.

(** The caller's commit: every record of the scope reaches the host. *)
Definition commit (self : t) : M unit :=
  m <- get_mdib ;;
  set_mdib (fold_left (fun m s => ProviderMdib.put_state s m)
                      (rt_sample_state_updates self) m).

End RtDataMdibUpdateTransaction.

(** ** _SampleArrayGenerator *)

Module _SampleArrayGenerator.

Record t : Type := {
  _descriptor_handle : string;
  _last_timestamp : option Q;
  _activation_state : ComponentActivation;
  _generator : WaveformGenerator.t;
  current_rt_sample_array : option Ref
}.

Definition __init__ (descriptor_handle : string)
    (generator : WaveformGenerator.t) : t :=
  {| _descriptor_handle := descriptor_handle;
     _last_timestamp := None;
     _activation_state := ON;
     _generator := generator;
     current_rt_sample_array := None |}.

Definition set_activation_state (self : t)
    (component_activation_state : ComponentActivation) : M t :=
  let self1 :=
    {| _descriptor_handle := _descriptor_handle self;
       _last_timestamp := _last_timestamp self;
       _activation_state := component_activation_state;
       _generator := _generator self;
       current_rt_sample_array := current_rt_sample_array self |} in
  if ComponentActivation_eqb component_activation_state ON then
    now <- time_time ;;
    ret {| _descriptor_handle := _descriptor_handle self1;
           _last_timestamp := Some now;
           _activation_state := _activation_state self1;
           _generator := _generator self1;
           current_rt_sample_array := current_rt_sample_array self1 |}
  else ret self1.

(** [self._last_timestamp or now]: [None] and [0.0] are both falsy. *)
Definition last_timestamp_or (last_timestamp : option Q) (now : Q) : Q :=
  match last_timestamp with
  | Some t => if Py.truthy t then t else now
  | None => now
  end.

(** Returns the reference to the new sample array and the generator as the
    call leaves it.  A float division by [0.0] raises. *)
Definition get_next_sample_array (self : t) : M (Ref * t) :=
  if negb (ComponentActivation_eqb (_activation_state self) ON) then
    r <- new_object
           (RtSampleArray.__init__ None
              (WaveformGenerator.sampleperiod (_generator self)) []
              (_activation_state self)) ;;
    ret (r, {| _descriptor_handle := _descriptor_handle self;
               _last_timestamp := _last_timestamp self;
               _activation_state := _activation_state self;
               _generator := _generator self;
               current_rt_sample_array := Some r |})
  else
    now <- time_time ;;
    let observation_time := last_timestamp_or (_last_timestamp self) now in
    let sampleperiod := WaveformGenerator.sampleperiod (_generator self) in
    if Qeq_bool sampleperiod 0 then raise ZeroDivisionError
    else
      let samples_count := Py.int ((now - observation_time) / sampleperiod) in
      let '(samples, generator) :=
        WaveformGenerator.next_samples (_generator self) samples_count in
      r <- new_object
             (RtSampleArray.__init__ (Some observation_time) sampleperiod
                samples (_activation_state self)) ;;
      ret (r, {| _descriptor_handle := _descriptor_handle self;
                 _last_timestamp :=
                   Some (observation_time
                         + sampleperiod * inject_Z samples_count);
                 _activation_state := _activation_state self;
                 _generator := generator;
                 current_rt_sample_array := Some r |}).

Definition set_waveform_generator (self : t)
    (generator : WaveformGenerator.t) : t :=
  {| _descriptor_handle := _descriptor_handle self;
     _last_timestamp := _last_timestamp self;
     _activation_state := _activation_state self;
     _generator := generator;
     current_rt_sample_array := current_rt_sample_array self |}.

Definition is_active (self : t) : bool :=
  ComponentActivation_eqb (_activation_state self) ON.

End _SampleArrayGenerator.

(** ** DefaultWaveformSource *)

Module DefaultWaveformSource.

(** [self._mdib] refers to the host model of the world. *)
Record t : Type := {
  _waveform_generators : Dict.t _SampleArrayGenerator.t;
  _annotators : Dict.t Annotator.t
}.

Definition __init__ : t :=
  {| _waveform_generators := []; _annotators := [] |}.

Definition set_waveform_generators (self : t)
    (d : Dict.t _SampleArrayGenerator.t) : t :=
  {| _waveform_generators := d; _annotators := _annotators self |}.

Definition set_annotators (self : t) (d : Dict.t Annotator.t) : t :=
  {| _waveform_generators := _waveform_generators self; _annotators := d |}.

Definition register_waveform_generator (self : t)
    (descriptor_handle : string) (wf_generator : WaveformGenerator.t)
    : M t :=
  let sample_period := WaveformGenerator.sampleperiod wf_generator in
  descriptor_container <- Transaction.get_one descriptor_handle ;;
  (if negb (Qeq_bool (DescriptorContainer.SamplePeriod descriptor_container)
                     sample_period)
   then Transaction.write_sample_period descriptor_handle sample_period
   else ret tt) ;;;
  match Dict.get descriptor_handle (_waveform_generators self) with
  | Some g =>
      ret (set_waveform_generators self
             (Dict.set descriptor_handle
                (_SampleArrayGenerator.set_waveform_generator g wf_generator)
                (_waveform_generators self)))
  | None =>
      ret (set_waveform_generators self
             (Dict.set descriptor_handle
                (_SampleArrayGenerator.__init__ descriptor_handle
                   wf_generator)
                (_waveform_generators self)))
  end.

Definition set_activation_state (self : t) (descriptor_handle : string)
    (component_activation_state : ComponentActivation) : M t :=
  match Dict.get descriptor_handle (_waveform_generators self) with
  | None => raise KeyError
  | Some wf_generator =>
      wf_generator <- _SampleArrayGenerator.set_activation_state
                        wf_generator component_activation_state ;;
      state <- Transaction.get_state descriptor_handle ;;
      let state :=
        StateContainer.set_ActivationState state
          component_activation_state in
      let state :=
        if negb (_SampleArrayGenerator.is_active wf_generator)
        then StateContainer.set_MetricValue state None
        else state in
      Transaction.commit_state state ;;;
      log (ActivationWrite descriptor_handle component_activation_state) ;;;
      ret (set_waveform_generators self
             (Dict.set descriptor_handle wf_generator
                (_waveform_generators self)))
  end.

Definition register_annotation_generator (self : t)
    (annotator : Annotator.t) : t :=
  set_annotators self
    (Dict.set (Annotator.trigger_handle annotator) annotator
       (_annotators self)).

(** [rt_sample_arrays] of [_add_all_annotations]: the current sample array
    of every generator; [None] is Python's [None]. *)
Definition rt_sample_arrays (self : t) : Dict.t (option Ref) :=
  map (fun '(handle, g) =>
         (handle, _SampleArrayGenerator.current_rt_sample_array g))
      (_waveform_generators self).

(** The loop over [_annotator.annotated_handles]; a method call on [None]
    raises [AttributeError]. *)
Fixpoint annotate_handles (arrays : Dict.t (option Ref))
    (annotation : Annotation) (timestamps : list Q)
    (dest_handles : list string) : M unit :=
  match dest_handles with
  | [] => ret tt
  | dest_handle :: rest =>
      (match Dict.get dest_handle arrays with
       | Some (Some r) =>
           mutate r (fun b =>
             RtSampleArray.add_annotations_at b annotation timestamps)
       | Some None => raise AttributeError
       | None => ret tt
       end) ;;;
      annotate_handles arrays annotation timestamps rest
  end.

(** The loop over [self._annotators.items()]; it returns the annotators as
    their calls leave them, under their keys. *)
Fixpoint annotate_all (arrays : Dict.t (option Ref))
    (items : list (string * Annotator.t)) : M (Dict.t Annotator.t) :=
  match items with
  | [] => ret []
  | (src_handle, _annotator) :: rest =>
      _annotator <-
        (match Dict.get src_handle arrays with
         | Some (Some r) =>
             b <- deref r ;;
             match Annotator.get_annotation_timestamps _annotator b with
             | Raise e => raise e
             | Ok (timestamps, _annotator) =>
                 (match timestamps with
                  | [] => ret tt
                  | _ :: _ =>
                      annotate_handles arrays
                        (Annotator.annotation _annotator) timestamps
                        (Annotator.annotated_handles _annotator)
                  end) ;;;
                 ret _annotator
             end
         | Some None => raise AttributeError
         | None => ret _annotator
         end) ;;
      rest <- annotate_all arrays rest ;;
      ret ((src_handle, _annotator) :: rest)
  end.

Definition _add_all_annotations (self : t) : M t :=
  let rt_sample_arrays := rt_sample_arrays self in
  annotators <- annotate_all rt_sample_arrays (_annotators self) ;;
  ret (set_annotators self annotators).

Section Decimal.

(** [Context(prec=10).create_decimal], of Python's [decimal]. *)
Variable create_decimal : Q -> Q.

(** Returns the source and the state record as the call leaves them. *)
Definition _update_rt_samples (self : t) (state : StateContainer.t)
    : M (t * StateContainer.t) :=
  match Dict.get (StateContainer.DescriptorHandle state)
                 (_waveform_generators self) with
  | Some wf_generator =>
      '(r, wf_generator) <-
        _SampleArrayGenerator.get_next_sample_array wf_generator ;;
      rt_sample_array <- deref r ;;
      let samples :=
        map create_decimal (RtSampleArray.samples rt_sample_array) in
      let state :=
        match StateContainer.MetricValue state with
        | None => StateContainer.mk_metric_value state
        | Some _ => state
        end in
      let state :=
        StateContainer.set_MetricValue state
          (Some {| MetricValue.Samples := samples;
                   MetricValue.DeterminationTime :=
                     RtSampleArray.determination_time rt_sample_array;
                   MetricValue.Annotation := FieldOf r;
                   MetricValue.ApplyAnnotation := FieldOf r |}) in
      let state :=
        StateContainer.set_ActivationState state
          (RtSampleArray.activation_state rt_sample_array) in
      log (ValueWrite (StateContainer.DescriptorHandle state)
                      (RtSampleArray.sample_period rt_sample_array)) ;;;
      ret (set_waveform_generators self
             (Dict.set (StateContainer.DescriptorHandle state)
                wf_generator (_waveform_generators self)),
           state)
  | None => ret (self, state)
  end.

(** The loop over [self._waveform_generators.items()].  The items are the
    generator objects of the dictionary, so [is_active] is read from the
    dictionary as it is when the item is reached. *)
Fixpoint update_generators (handles : list string) (self : t)
    (transaction : RtDataMdibUpdateTransaction.t)
    : M (t * RtDataMdibUpdateTransaction.t) :=
  match handles with
  | [] => ret (self, transaction)
  | descriptor_handle :: rest =>
      match Dict.get descriptor_handle (_waveform_generators self) with
      | Some wf_generator =>
          if _SampleArrayGenerator.is_active wf_generator then
            state <-
              RtDataMdibUpdateTransaction.get_real_time_sample_array_metric_state
                transaction descriptor_handle ;;
            '(self, state) <- _update_rt_samples self state ;;
            update_generators rest self
              (RtDataMdibUpdateTransaction.keep transaction state)
          else update_generators rest self transaction
      | None => update_generators rest self transaction
      end
  end.

Definition update_all_realtime_samples (self : t)
    (transaction : RtDataMdibUpdateTransaction.t)
    : M (t * RtDataMdibUpdateTransaction.t) :=
  '(self, transaction) <-
    update_generators (Dict.keys (_waveform_generators self)) self
      transaction ;;
  self <- _add_all_annotations self ;;
  ret (self, transaction).

End Decimal.

End DefaultWaveformSource.

(** ** The host driving the waveform source *)

(** The calls of the interface of the waveform source. *)
Inductive Call : Type :=
| RegisterWaveformGenerator (descriptor_handle : string)
    (wf_generator : WaveformGenerator.t)
| SetActivationState (descriptor_handle : string)
    (component_activation_state : ComponentActivation)
| RegisterAnnotationGenerator (annotator : Annotator.t)
| UpdateAllRealtimeSamples.

Section Host.

Variable create_decimal : Q -> Q.

(** Modelled from the spec: for an update cycle the host opens a write
    scope, hands it to [update_all_realtime_samples] and commits it. *)
Definition call (c : Call) (self : DefaultWaveformSource.t)
    : M DefaultWaveformSource.t :=
  match c with
  | RegisterWaveformGenerator h g =>
      DefaultWaveformSource.register_waveform_generator self h g
  | SetActivationState h s =>
      DefaultWaveformSource.set_activation_state self h s
  | RegisterAnnotationGenerator a =>
      ret (DefaultWaveformSource.register_annotation_generator self a)
  | UpdateAllRealtimeSamples =>
      '(self, transaction) <-
        DefaultWaveformSource.update_all_realtime_samples create_decimal
          self RtDataMdibUpdateTransaction.__init__ ;;
      RtDataMdibUpdateTransaction.commit transaction ;;;
      ret self
  end.

Fixpoint run (calls : list Call) (self : DefaultWaveformSource.t)
    : M DefaultWaveformSource.t :=
  match calls with
  | [] => ret self
  | c :: rest => self <- call c self ;; run rest self
  end.

End Host.

(** [n] successive calls of [get_next_sample_array] on one generator; the
    references of the sample arrays are returned in the order of the calls. *)
Fixpoint poll (n : nat) (self : _SampleArrayGenerator.t)
    : M (list Ref * _SampleArrayGenerator.t) :=
  match n with
  | O => ret ([], self)
  | S n' =>
      '(r, self) <- _SampleArrayGenerator.get_next_sample_array self ;;
      '(rs, self) <- poll n' self ;;
      ret (r :: rs, self)
  end.

(** ** Example data *)

Module Example.

(** A square wave around zero. *)
Definition square (n : nat) : Q := if Nat.even n then 1 else - (1).

Definition generator (sampleperiod : Q) : WaveformGenerator.t :=
  {| WaveformGenerator.sampleperiod := sampleperiod;
     WaveformGenerator.signal := square;
     WaveformGenerator.position := O |}.

(** A host with the channels A and B, both off and without a value; the
    descriptor of A declares the period 2, the one of B the period 1. *)
Definition host : ProviderMdib.t :=
  {| ProviderMdib.descriptions :=
       [{| DescriptorContainer.Handle := "A";
           DescriptorContainer.SamplePeriod := 2 |};
        {| DescriptorContainer.Handle := "B";
           DescriptorContainer.SamplePeriod := 1 |}];
     ProviderMdib.states :=
       [{| StateContainer.DescriptorHandle := "A";
           StateContainer.ActivationState := OFF;
           StateContainer.MetricValue := None |};
        {| StateContainer.DescriptorHandle := "B";
           StateContainer.ActivationState := OFF;
           StateContainer.MetricValue := None |}] |}.

(** A world with no sample array yet, in which nothing was written. *)
Definition world (clock : nat -> Q) : World :=
  {| heap := []; clock := clock; ticks := O; mdib := host; journal := [] |}.

(** A clock that reads 0.0 first and 2.5 from then on. *)
Definition clock_from_zero (n : nat) : Q :=
  match n with O => 0 | S _ => 5 # 2 end.

(** A clock that starts at 10 and advances by 2.5 from reading to
    reading. *)
Definition clock_from_ten (n : nat) : Q :=
  10 + inject_Z (Z.of_nat n) * (5 # 2).

(** The source and the world after the calls [calls], made on a new
    source in the world of [clock_from_ten]. *)
Definition after (calls : list Call) : DefaultWaveformSource.t * World :=
  match run (fun s => s) calls DefaultWaveformSource.__init__
            (world clock_from_ten) with
  | Ok r => r
  | Raise _ => (DefaultWaveformSource.__init__, world clock_from_ten)
  end.

(** Generators with the period 1 are registered for A and for B, two
    update cycles are run, then A is switched off. *)
Definition switch_off_A : list Call :=
  [RegisterWaveformGenerator "A" (generator 1);
   RegisterWaveformGenerator "B" (generator 1);
   UpdateAllRealtimeSamples;
   UpdateAllRealtimeSamples;
   SetActivationState "A" OFF].

(** The source and the world that these calls lead to. *)
Definition switched_off : DefaultWaveformSource.t * World :=
  Eval vm_compute in after switch_off_A.

(** An annotator triggered by A that annotates B, A and a channel C that has
    no generator. *)
Definition beat : Annotator.t :=
  Annotator.__init__ "beat" "A" ["B"; "A"; "C"].

(** Generators with the period 1 for A and for B and the annotator [beat]
    are registered, then two update cycles are run. *)
Definition annotate_from_A : list Call :=
  [RegisterWaveformGenerator "A" (generator 1);
   RegisterWaveformGenerator "B" (generator 1);
   RegisterAnnotationGenerator beat;
   UpdateAllRealtimeSamples;
   UpdateAllRealtimeSamples].

(** The source and the world that these calls lead to. *)
Definition annotated : DefaultWaveformSource.t * World :=
  Eval vm_compute in after annotate_from_A.

(** A generator is registered for A and switched off before any update
    cycle; the annotator [beat] is registered. *)
Definition switch_off_before_update : list Call :=
  [RegisterWaveformGenerator "A" (generator 1);
   SetActivationState "A" OFF;
   RegisterAnnotationGenerator beat].

(** The source and the world that these calls lead to. *)
Definition never_updated : DefaultWaveformSource.t * World :=
  Eval vm_compute in after switch_off_before_update.

(** Two annotators triggered by A that annotate A; the second one is
    registered after the first one. *)
Definition first_beat : Annotator.t := Annotator.__init__ "old" "A" ["A"].

Definition second_beat : Annotator.t := Annotator.__init__ "new" "A" ["A"].

(** A generator with the period 1 is registered for A, then the two
    annotators, one after the other, and an update cycle is run. *)
Definition replace_annotator : list Call :=
  [RegisterWaveformGenerator "A" (generator 1);
   RegisterAnnotationGenerator first_beat;
   RegisterAnnotationGenerator second_beat;
   UpdateAllRealtimeSamples].

(** The source and the world that these calls lead to. *)
Definition replaced : DefaultWaveformSource.t * World :=
  Eval vm_compute in after replace_annotator.

End Example.

(** ** Notions used in the statements *)

(** The sample indices that the time stamps resolve to, in their order. *)
Definition resolved_indices (self : RtSampleArray.t) (timestamps : list Q)
    : list Z :=
  flat_map (fun timestamp =>
              match RtSampleArray._nearest_index self timestamp with
              | Some i => [i]
              | None => []
              end) timestamps.

(** The positions of the rising edges through zero of a run of samples
    that follows the value [last_value]: the sample is above zero and the
    value before it is not. *)
Definition rising_edges (last_value : Q) (samples : list Q) : list nat :=
  filter (fun i =>
            Py.le (nth i (last_value :: samples) 0) 0
            && Py.gt (nth i samples 0) 0)
         (seq 0 (List.length samples)).

(** The number of samples of the sample arrays at the references [rs]. *)
Definition emitted_samples (store : list RtSampleArray.t) (rs : list Ref)
    : nat :=
  list_sum
    (map (fun r =>
            match nth_error store r with
            | Some b => List.length (RtSampleArray.samples b)
            | None => O
            end) rs).

(** The sample array at the reference [r] was made between the worlds
    [before] and [after] by the generator [g], which was ON: it did not exist
    before, and it is as its constructor left it, with a determination time
    and the period of the waveform generator of [g]. *)
Definition made_since (before after : World) (g : _SampleArrayGenerator.t)
    (r : Ref) : Prop :=
  (List.length (heap before) <= r)%nat
  /\ exists observation_time samples,
       nth_error (heap after) r
       = Some (RtSampleArray.__init__ (Some observation_time)
                 (WaveformGenerator.sampleperiod
                    (_SampleArrayGenerator._generator g))
                 samples ON).

(** A write of values for a channel with a generator of [generators] that
    is ON, with the period of the waveform generator of that generator. *)
Definition value_write_of (generators : Dict.t _SampleArrayGenerator.t)
    (e : HostWrite) : Prop :=
  exists h g,
    Dict.get h generators = Some g
    /\ _SampleArrayGenerator.is_active g = true
    /\ e = ValueWrite h
             (WaveformGenerator.sampleperiod
                (_SampleArrayGenerator._generator g)).

(** The sample array [b'] is [b] with annotations added: its time stamp,
    period, samples and activation state are those of [b], and its two
    annotation lists start with those of [b]. *)
Definition annotated_array (b b' : RtSampleArray.t) : Prop :=
  RtSampleArray.determination_time b' = RtSampleArray.determination_time b
  /\ RtSampleArray.sample_period b' = RtSampleArray.sample_period b
  /\ RtSampleArray.samples b' = RtSampleArray.samples b
  /\ RtSampleArray.activation_state b' = RtSampleArray.activation_state b
  /\ (exists more,
        RtSampleArray.annotations b' = RtSampleArray.annotations b ++ more)
  /\ (exists more,
        RtSampleArray.apply_annotations b'
        = RtSampleArray.apply_annotations b ++ more).

(** The world [w'] is [w] with annotations added to sample arrays: the
    clock, the host and the journal are those of [w], the store has the same
    references, and every sample array is the one of [w] with annotations
    added. *)
Definition only_annotated (w w' : World) : Prop :=
  clock w' = clock w
  /\ ticks w' = ticks w
  /\ mdib w' = mdib w
  /\ journal w' = journal w
  /\ List.length (heap w') = List.length (heap w)
  /\ forall r b,
       nth_error (heap w) r = Some b ->
       exists b', nth_error (heap w') r = Some b' /\ annotated_array b b'.

(** Every reference of the sample array names one of its annotations. *)
Definition annotation_indices_valid (b : RtSampleArray.t) : Prop :=
  Forall (fun a =>
            (0 <= AnnotationIndex a < Py.len (RtSampleArray.annotations b))%Z)
         (RtSampleArray.apply_annotations b).

(** The annotation that the reference [a] names in the sample array [b]. *)
Definition named_annotation (b : RtSampleArray.t) (a : ApplyAnnotation)
    : option Annotation :=
  nth_error (RtSampleArray.annotations b) (Z.to_nat (AnnotationIndex a)).

(** The annotator [a'] is [a] but for its last value. *)
Definition same_annotator (a a' : Annotator.t) : Prop :=
  Annotator.annotation a' = Annotator.annotation a
  /\ Annotator.trigger_handle a' = Annotator.trigger_handle a
  /\ Annotator.annotated_handles a' = Annotator.annotated_handles a.

(** The annotators [kept'] are the annotators [kept], under the same keys
    and in the same order, but for their last values. *)
Definition same_annotators (kept kept' : Dict.t Annotator.t) : Prop :=
  Forall2 (fun x y => fst y = fst x /\ same_annotator (snd x) (snd y))
          kept kept'.

(** From the entry [x] of the annotators to the entry [y], under the same
    key, the annotator has run once when the mapping [arrays] has its key:
    [get_annotation_timestamps] was called on it with the sample array that
    [arrays] gives for the key in the store, and left the annotator of [y].
    When [arrays] has not the key, the annotator is as it was. *)
Definition annotator_ran (arrays : Dict.t (option Ref))
    (store : list RtSampleArray.t) (x y : string * Annotator.t) : Prop :=
  fst y = fst x
  /\ match Dict.get (fst x) arrays with
     | Some (Some r) =>
         exists b timestamps,
           nth_error store r = Some b
           /\ Annotator.get_annotation_timestamps (snd x) b
              = Ok (timestamps, snd y)
     | Some None => False
     | None => snd y = snd x
     end.

(** From the world [w] to the world [w'] every sample array of the store
    has kept its annotations, and the annotations added to them all
    satisfy [P]. *)
Definition annotated_by (P : Annotation -> Prop) (w w' : World) : Prop :=
  forall r b,
    nth_error (heap w) r = Some b ->
    exists b' more,
      nth_error (heap w') r = Some b'
      /\ RtSampleArray.annotations b' = RtSampleArray.annotations b ++ more
      /\ Forall P more.

(** The period that the host declares for each channel; [None] where it has
    no descriptor. *)
Definition declared_by (m : ProviderMdib.t) (h : string) : option Q :=
  option_map DescriptorContainer.SamplePeriod (ProviderMdib.find_descriptor h m).

(** The declared periods after one more write. *)
Definition declare (declared : string -> option Q) (e : HostWrite)
    : string -> option Q :=
  match e with
  | DescriptorWrite h p =>
      fun h' => if String.eqb h' h then Some p else declared h'
  | _ => declared
  end.

(** Read in their order from the declared periods [declared], the writes
    [writes] respect the declared periods: every write of values for a
    channel comes with the period that is declared for the channel when the
    write is made. *)
Fixpoint periods_respected (declared : string -> option Q)
    (writes : list HostWrite) : Prop :=
  match writes with
  | [] => True
  | e :: rest =>
      match e with
      | ValueWrite h p => exists q, declared h = Some q /\ q == p
      | _ => True
      end
      /\ periods_respected (declare declared e) rest
  end.

(** Every generator of the source has a descriptor in the host, and the
    descriptor declares the period of its waveform generator. *)
Definition periods_declared (self : DefaultWaveformSource.t) (w : World)
    : Prop :=
  forall h g,
    Dict.get h (DefaultWaveformSource._waveform_generators self) = Some g ->
    exists q,
      declared_by (mdib w) h = Some q
      /\ q == WaveformGenerator.sampleperiod
                (_SampleArrayGenerator._generator g).

(** The generators are kept under pairwise different handles and their
    periods are declared. *)
Definition source_ok (self : DefaultWaveformSource.t) (w : World) : Prop :=
  NoDup (Dict.keys (DefaultWaveformSource._waveform_generators self))
  /\ periods_declared self w.

(** From [(self, w)] to [(self', w')] the journal has grown by writes that
    respect the declared periods and that account for the periods declared
    in [w'], and [source_ok] holds again. *)
Definition step_ok (self : DefaultWaveformSource.t) (w : World)
    (self' : DefaultWaveformSource.t) (w' : World) : Prop :=
  exists writes,
    journal w' = journal w ++ writes
    /\ periods_respected (declared_by (mdib w)) writes
    /\ (forall h,
          fold_left declare writes (declared_by (mdib w)) h
          = declared_by (mdib w') h)
    /\ source_ok self' w'.

(** The state record [st] shows the current sample array of its channel:
    the generator under its handle holds a sample array of the store, the
    record is ON, its samples are those of the array as decimals, its
    determination time is that of the array, and its two annotation lists
    are the lists of the array. *)
Definition published (create_decimal : Q -> Q)
    (generators : Dict.t _SampleArrayGenerator.t)
    (store : list RtSampleArray.t) (st : StateContainer.t) : Prop :=
  exists g r b,
    Dict.get (StateContainer.DescriptorHandle st) generators = Some g
    /\ _SampleArrayGenerator.current_rt_sample_array g = Some r
    /\ nth_error store r = Some b
    /\ StateContainer.ActivationState st = ON
    /\ StateContainer.MetricValue st
       = Some {| MetricValue.Samples :=
                   map create_decimal (RtSampleArray.samples b);
                 MetricValue.DeterminationTime :=
                   RtSampleArray.determination_time b;
                 MetricValue.Annotation := FieldOf r;
                 MetricValue.ApplyAnnotation := FieldOf r |}.

(** ** Properties *)

(** *** Python numerics *)

Lemma Py_lt_true (a b : Q) : Py.lt a b = true <-> a < b.
Proof.
  unfold Py.lt. rewrite negb_true_iff.
  split; intros H.
  - apply Qnot_le_lt. intros L. apply Qle_bool_iff in L. congruence.
  - destruct (Qle_bool b a) eqn:E; [| reflexivity].
    apply Qle_bool_iff in E. exfalso. now apply (Qlt_not_le a b).
Qed.



Lemma Py_ge_false (a b : Q) : Py.ge a b = false <-> a < b.
Proof.
  unfold Py.ge. rewrite <- negb_true_iff. apply (Py_lt_true a b).
Qed.



Lemma Py_len_nonneg {A : Type} (l : list A) : 0 <= inject_Z (Py.len l).
Proof.
  unfold Py.len. change 0 with (inject_Z 0). rewrite <- Zle_Qle. lia.
Qed.

(** *** RtSampleArray *)



(** C2.  On a sample array with the determination time 0 and the period 1
    the time stamp -0.49 resolves to the index 1, whatever the samples are:
    [int] truncates -0.49 to 0 and its rest [% 1] is 0.51.  The three other
    time stamps of the tie-break example resolve to 0, to 1 and to nothing. *)
Theorem nearest_index_tie_break (samples : list Q) :
  RtSampleArray._nearest_index
    (RtSampleArray.__init__ (Some 0) 1 samples ON) (- (49 # 100)) = Some 1%Z
  /\ RtSampleArray._nearest_index
       (RtSampleArray.__init__ (Some 0) 1 [1; 2; 3] ON) (49 # 100) = Some 0%Z
  /\ RtSampleArray._nearest_index
       (RtSampleArray.__init__ (Some 0) 1 [1; 2; 3] ON) (1 # 2) = Some 1%Z
  /\ RtSampleArray._nearest_index
       (RtSampleArray.__init__ (Some 0) 1 [1; 2; 3] ON) (- (51 # 100)) = None.
Proof.
  split; [| repeat split; reflexivity].
  unfold RtSampleArray._nearest_index, RtSampleArray.__init__.
  cbn [RtSampleArray.determination_time RtSampleArray.sample_period
       RtSampleArray.samples].
  assert (E : Py.ge (- (49 # 100))
                (0 + inject_Z (Py.len samples) * 1 + 1 * (1 # 2)) = false).
  { apply Py_ge_false. pose proof (Py_len_nonneg samples). lra. }
  rewrite E. reflexivity.
Qed.

(** C1.  Three samples from time 0 on with the period 1, annotated at the
    time stamp 2.5: the reference that is appended has the sample index 3,
    the number of the samples, which is the index of no sample. *)
Theorem add_annotations_at_past_last_sample :
  let after :=
    RtSampleArray.add_annotations_at
      (RtSampleArray.__init__ (Some 0) 1 [1; 2; 3] ON) "a" [5 # 2] in
  RtSampleArray.apply_annotations after
  = [{| AnnotationIndex := 0; SampleIndex := 3 |}]
  /\ RtSampleArray.annotations after = ["a"]
  /\ Py.len (RtSampleArray.samples after) = 3%Z.
Proof. repeat split; reflexivity. Qed.

Lemma add_annotations_fold (self : RtSampleArray.t) (n : Z)
    (timestamps : list Q) :
  forall (applies : list ApplyAnnotation) (applied : bool),
    fold_left (RtSampleArray.add_annotations_step self n) timestamps
              (applies, applied)
    = (applies
         ++ map (fun i => {| AnnotationIndex := n; SampleIndex := i |})
                (resolved_indices self timestamps),
       match resolved_indices self timestamps with
       | [] => applied
       | _ :: _ => true
       end).
Proof.
  induction timestamps as [| ts rest IH]; intros applies applied; simpl.
  - now rewrite app_nil_r.
  - unfold RtSampleArray.add_annotations_step at 2.
    destruct (RtSampleArray._nearest_index self ts) as [i |]; simpl.
    + rewrite IH, <- app_assoc. simpl.
      now destruct (resolved_indices self rest).
    + apply IH.
Qed.

(** C6.  [add_annotations_at] appends one reference per time stamp that
    resolves, all of them with the index the payload gets, and appends the
    payload once when there is such a time stamp; when none resolves the
    sample array is left as it was. *)
Theorem add_annotations_at_spec (self : RtSampleArray.t)
    (annotation : Annotation) (timestamps : list Q) :
  let after := RtSampleArray.add_annotations_at self annotation timestamps in
  let resolved := resolved_indices self timestamps in
  RtSampleArray.apply_annotations after
  = RtSampleArray.apply_annotations self
      ++ map (fun i =>
                {| AnnotationIndex := Py.len (RtSampleArray.annotations self);
                   SampleIndex := i |}) resolved
  /\ RtSampleArray.annotations after
     = match resolved with
       | [] => RtSampleArray.annotations self
       | _ :: _ => RtSampleArray.annotations self ++ [annotation]
       end
  /\ match resolved with
     | [] => after = self
     | _ :: _ =>
         List.length (RtSampleArray.annotations after)
         = S (List.length (RtSampleArray.annotations self))
     end.
Proof.
  cbv zeta. unfold RtSampleArray.add_annotations_at.
  rewrite add_annotations_fold.
  destruct (resolved_indices self timestamps) as [| i rest]; simpl.
  - rewrite app_nil_r. destruct self; simpl. repeat split; reflexivity.
  - repeat split; try reflexivity.
    rewrite length_app. simpl. lia.
Qed.

(** *** Annotator *)

Lemma filter_map_comm {A B : Type} (f : B -> bool) (g : A -> B)
    (l : list A) :
  filter f (map g l) = map g (filter (fun x => f (g x)) l).
Proof.
  induction l as [| x xs IH]; simpl; [reflexivity |].
  destruct (f (g x)); simpl; now rewrite IH.
Qed.

Lemma last_cons {A : Type} (rest : list A) :
  forall s d : A, last (s :: rest) d = last rest s.
Proof.
  induction rest as [| x xs IH]; intros s d; [reflexivity |].
  change (last (s :: x :: xs) d) with (last (x :: xs) d).
  now rewrite !IH.
Qed.

Lemma rising_edges_cons (last_value rt_sample : Q) (rest : list Q) :
  rising_edges last_value (rt_sample :: rest)
  = (if Py.le last_value 0 && Py.gt rt_sample 0 then [O] else [])
      ++ map S (rising_edges rt_sample rest).
Proof.
  unfold rising_edges.
  change (seq 0 (List.length (rt_sample :: rest)))
    with (O :: seq 1 (List.length rest)).
  rewrite <- seq_shift. cbn [filter]. rewrite filter_map_comm.
  cbn [nth].
  now destruct (Py.le last_value 0 && Py.gt rt_sample 0).
Qed.

Lemma timestamps_loop_some (d period : Q) (rest : list Q) :
  forall (i : Z) (ret : list Q) (last_value : Q),
    Annotator.timestamps_loop (Some d) period i rest ret last_value
    = Ok (ret ++ map (fun j => d + inject_Z (i + Z.of_nat j) * period)
                     (rising_edges last_value rest),
          last rest last_value).
Proof.
  induction rest as [| s rest IH]; intros i ret last_value.
  - simpl. now rewrite app_nil_r.
  - rewrite rising_edges_cons. cbn [Annotator.timestamps_loop].
    rewrite last_cons.
    assert (M : forall l,
               map (fun j => d + inject_Z (i + Z.of_nat j) * period) (map S l)
               = map (fun j => d + inject_Z (i + 1 + Z.of_nat j) * period) l).
    { intros l. rewrite map_map. apply map_ext. intros j.
      now replace (i + Z.of_nat (S j))%Z with (i + 1 + Z.of_nat j)%Z by lia. }
    destruct (Py.le last_value 0 && Py.gt s 0); rewrite IH, map_app, M.
    + rewrite <- app_assoc. simpl.
      now replace (i + 0)%Z with i by lia.
    + reflexivity.
Qed.

Lemma timestamps_loop_none (period : Q) (rest : list Q) :
  forall (i : Z) (ret : list Q) (last_value : Q),
    Annotator.timestamps_loop None period i rest ret last_value
    = match rising_edges last_value rest with
      | [] => Ok (ret, last rest last_value)
      | _ :: _ => Raise TypeError
      end.
Proof.
  induction rest as [| s rest IH]; intros i ret last_value.
  - reflexivity.
  - rewrite rising_edges_cons. cbn [Annotator.timestamps_loop].
    rewrite last_cons.
    destruct (Py.le last_value 0 && Py.gt s 0); [reflexivity |].
    rewrite IH. simpl. now destruct (rising_edges s rest).
Qed.

(** What [get_annotation_timestamps] returns, by the positions of the
    rising edges: the time stamps, and the annotator with every field as it
    was but [_last_value], which is the last sample. *)
Lemma get_annotation_timestamps_edges (self : Annotator.t)
    (rt_sample_array : RtSampleArray.t) :
  Annotator.get_annotation_timestamps self rt_sample_array
  = let samples := RtSampleArray.samples rt_sample_array in
    let edges := rising_edges (Annotator._last_value self) samples in
    let left :=
      {| Annotator.annotation := Annotator.annotation self;
         Annotator.trigger_handle := Annotator.trigger_handle self;
         Annotator.annotated_handles := Annotator.annotated_handles self;
         Annotator._last_value := last samples (Annotator._last_value self) |} in
    match RtSampleArray.determination_time rt_sample_array, edges with
    | Some d, _ =>
        Ok (map (fun i =>
                   d + inject_Z (Z.of_nat i)
                       * RtSampleArray.sample_period rt_sample_array)
                edges,
            left)
    | None, [] => Ok ([], left)
    | None, _ :: _ => Raise TypeError
    end.
Proof.
  cbv zeta. unfold Annotator.get_annotation_timestamps.
  destruct (RtSampleArray.determination_time rt_sample_array) as [d |].
  - rewrite timestamps_loop_some. reflexivity.
  - rewrite timestamps_loop_none.
    now destruct (rising_edges _ _).
Qed.

(** C5.  A new annotator has the last value 0.  On a sample array with a
    determination time [d], [get_annotation_timestamps] returns, in the order
    of the samples, [d + i * sample_period] for exactly the positions [i]
    whose sample is above zero while the value before it (the last value of
    the annotator for the first sample) is not.  The annotator it leaves is
    the one it was called on but for [_last_value], which reads the last
    sample of the array (the old last value when the array has no sample),
    whether or not a time stamp was returned.  Without a determination time
    the call returns no time stamp when there is no such position, and
    raises otherwise.  The last value is kept from call to call: the next
    call, on the annotator that this call leaves and on any next sample
    array, finds its rising edges from the last sample of this array and
    leaves the last sample of the next array (the last sample of this array
    when the next one is empty). *)
Theorem get_annotation_timestamps_spec (self : Annotator.t)
    (rt_sample_array next_array : RtSampleArray.t) (annotation : Annotation)
    (trigger_handle : string) (annotated_handles : list string) :
  let samples := RtSampleArray.samples rt_sample_array in
  let edges := rising_edges (Annotator._last_value self) samples in
  let left :=
    {| Annotator.annotation := Annotator.annotation self;
       Annotator.trigger_handle := Annotator.trigger_handle self;
       Annotator.annotated_handles := Annotator.annotated_handles self;
       Annotator._last_value := last samples (Annotator._last_value self) |} in
  Annotator._last_value
    (Annotator.__init__ annotation trigger_handle annotated_handles) = 0
  /\ Annotator.get_annotation_timestamps self rt_sample_array
     = match RtSampleArray.determination_time rt_sample_array, edges with
       | Some d, _ =>
           Ok (map (fun i =>
                      d + inject_Z (Z.of_nat i)
                          * RtSampleArray.sample_period rt_sample_array)
                   edges,
               left)
       | None, [] => Ok ([], left)
       | None, _ :: _ => Raise TypeError
       end
  /\ (forall (timestamps : list Q) (self' : Annotator.t),
        Annotator.get_annotation_timestamps self rt_sample_array
        = Ok (timestamps, self') ->
        let next_samples := RtSampleArray.samples next_array in
        let next_edges :=
          rising_edges (last samples (Annotator._last_value self))
                       next_samples in
        Annotator._last_value self'
        = last samples (Annotator._last_value self)
        /\ match Annotator.get_annotation_timestamps self' next_array with
           | Ok (next_timestamps, self'') =>
               Annotator._last_value self''
               = last next_samples (last samples (Annotator._last_value self))
               /\ match RtSampleArray.determination_time next_array with
                  | Some d =>
                      next_timestamps
                      = map (fun i =>
                               d + inject_Z (Z.of_nat i)
                                   * RtSampleArray.sample_period next_array)
                            next_edges
                  | None => next_timestamps = [] /\ next_edges = []
                  end
           | Raise e =>
               e = TypeError
               /\ RtSampleArray.determination_time next_array = None
               /\ next_edges <> []
           end).
Proof.
  cbv zeta. split; [reflexivity |].
  split; [apply get_annotation_timestamps_edges |].
  intros timestamps self' H.
  assert (L : Annotator._last_value self'
              = last (RtSampleArray.samples rt_sample_array)
                     (Annotator._last_value self)).
  { rewrite get_annotation_timestamps_edges in H. cbv zeta in H.
    destruct (RtSampleArray.determination_time rt_sample_array);
      [| destruct (rising_edges _ _); [| discriminate]];
      injection H as _ <-; reflexivity. }
  split; [exact L |].
  rewrite get_annotation_timestamps_edges. cbv zeta. rewrite L.
  destruct (RtSampleArray.determination_time next_array) as [d |].
  - split; reflexivity.
  - destruct (rising_edges _ _) as [| i rest].
    + repeat split.
    + repeat split. discriminate.
Qed.

(** *** Dictionaries and the host model *)

Lemma ComponentActivation_eqb_eq (a b : ComponentActivation) :
  ComponentActivation_eqb a b = true <-> a = b.
Proof. destruct a, b; simpl; split; congruence. Qed.

Lemma Dict_get_set_same {V : Type} (k : string) (v : V) (d : Dict.t V) :
  Dict.get k (Dict.set k v d) = Some v.
Proof.
  induction d as [| [k' v'] rest IH]; simpl.
  - now rewrite String.eqb_refl.
  - destruct (String.eqb k k') eqn:E; simpl; rewrite E; [reflexivity | exact IH].
Qed.

Lemma Dict_get_set_other {V : Type} (k k' : string) (v : V) (d : Dict.t V) :
  k <> k' -> Dict.get k' (Dict.set k v d) = Dict.get k' d.
Proof.
  intros N. induction d as [| [k0 v0] rest IH]; simpl.
  - destruct (String.eqb k' k) eqn:E; [| reflexivity].
    apply String.eqb_eq in E. congruence.
  - destruct (String.eqb k k0) eqn:E; simpl.
    + apply String.eqb_eq in E. subst k0.
      destruct (String.eqb k' k) eqn:E'; [| reflexivity].
      apply String.eqb_eq in E'. congruence.
    + now rewrite IH.
Qed.

Lemma Dict_keys_set {V : Type} (k : string) (v : V) (d : Dict.t V) :
  Dict.keys (Dict.set k v d)
  = if Dict.mem k d then Dict.keys d else Dict.keys d ++ [k].
Proof.
  unfold Dict.mem. induction d as [| [k' v'] rest IH]; simpl; [reflexivity |].
  destruct (String.eqb k k') eqn:E; simpl; [reflexivity |].
  rewrite IH. now destruct (Dict.get k rest).
Qed.

Lemma Dict_get_in_keys {V : Type} (k : string) (d : Dict.t V) :
  In k (Dict.keys d) <-> Dict.get k d <> None.
Proof.
  induction d as [| [k' v'] rest IH]; simpl; [tauto |].
  destruct (String.eqb k k') eqn:E.
  - apply String.eqb_eq in E. subst. split; [discriminate | auto].
  - apply String.eqb_neq in E. rewrite <- IH. split; [| auto].
    intros [H | H]; [congruence | assumption].
Qed.

Lemma find_state_handle (h : string) (l : list StateContainer.t)
    (s : StateContainer.t) :
  ProviderMdib.find_state h l = Some s -> StateContainer.DescriptorHandle s = h.
Proof.
  unfold ProviderMdib.find_state. intros H. apply find_some in H.
  destruct H as [_ H]. apply String.eqb_eq in H. congruence.
Qed.

Lemma find_state_replace (h k : string) (l : list StateContainer.t)
    (old new : StateContainer.t) :
  ProviderMdib.find_state h l = Some old ->
  k = h ->
  StateContainer.DescriptorHandle new = h ->
  ProviderMdib.find_state h
    (map (fun s' =>
            if String.eqb k (StateContainer.DescriptorHandle s')
            then new else s') l) = Some new.
Proof.
  unfold ProviderMdib.find_state. intros H -> Hn.
  induction l as [| s rest IH]; simpl in *.
  - discriminate.
  - destruct (String.eqb h (StateContainer.DescriptorHandle s)) eqn:E.
    + now rewrite Hn, String.eqb_refl.
    + rewrite E. auto.
Qed.

(** *** _SampleArrayGenerator *)

(** C9.  A generator that is not ON makes a sample array without a
    determination time and without samples, with the period of its waveform
    generator and its own activation state.  The call raises nothing, leaves
    the waveform generator as it was (no samples are asked of it) and does
    not read the clock. *)
Theorem get_next_sample_array_inactive (self : _SampleArrayGenerator.t)
    (w : World) :
  _SampleArrayGenerator._activation_state self <> ON ->
  _SampleArrayGenerator.get_next_sample_array self w
  = Ok ((List.length (heap w),
         {| _SampleArrayGenerator._descriptor_handle :=
              _SampleArrayGenerator._descriptor_handle self;
            _SampleArrayGenerator._last_timestamp :=
              _SampleArrayGenerator._last_timestamp self;
            _SampleArrayGenerator._activation_state :=
              _SampleArrayGenerator._activation_state self;
            _SampleArrayGenerator._generator :=
              _SampleArrayGenerator._generator self;
            _SampleArrayGenerator.current_rt_sample_array :=
              Some (List.length (heap w)) |}),
        {| heap :=
             heap w
               ++ [{| RtSampleArray.determination_time := None;
                      RtSampleArray.sample_period :=
                        WaveformGenerator.sampleperiod
                          (_SampleArrayGenerator._generator self);
                      RtSampleArray.samples := [];
                      RtSampleArray.activation_state :=
                        _SampleArrayGenerator._activation_state self;
                      RtSampleArray.annotations := [];
                      RtSampleArray.apply_annotations := [] |}];
           clock := clock w;
           ticks := ticks w;
           mdib := mdib w;
           journal := journal w |}).
Proof.
  intros H. unfold _SampleArrayGenerator.get_next_sample_array.
  destruct (ComponentActivation_eqb
              (_SampleArrayGenerator._activation_state self) ON) eqn:E.
  - apply ComponentActivation_eqb_eq in E. contradiction.
  - reflexivity.
Qed.

(** *** DefaultWaveformSource: activation state *)

(** C8.  For a channel with a registered generator and a state record in the
    host, [set_activation_state] raises nothing; the generator gets the new
    activation state and keeps its waveform generator; its last time stamp
    becomes the reading of the clock when the new state is ON and is kept
    otherwise; the state record of the host gets the new activation state,
    and its metric value is set to [None] when the new state is not ON and
    kept when it is. *)
Theorem set_activation_state_spec (self : DefaultWaveformSource.t)
    (descriptor_handle : string)
    (component_activation_state : ComponentActivation) (w : World)
    (g : _SampleArrayGenerator.t) (st : StateContainer.t) :
  Dict.get descriptor_handle (DefaultWaveformSource._waveform_generators self)
  = Some g ->
  ProviderMdib.find_state descriptor_handle (ProviderMdib.states (mdib w))
  = Some st ->
  exists self' w' g' st',
    DefaultWaveformSource.set_activation_state self descriptor_handle
      component_activation_state w = Ok (self', w')
    /\ Dict.get descriptor_handle
         (DefaultWaveformSource._waveform_generators self') = Some g'
    /\ _SampleArrayGenerator._activation_state g' = component_activation_state
    /\ _SampleArrayGenerator._generator g' = _SampleArrayGenerator._generator g
    /\ _SampleArrayGenerator._last_timestamp g'
       = (if ComponentActivation_eqb component_activation_state ON
          then Some (clock w (ticks w))
          else _SampleArrayGenerator._last_timestamp g)
    /\ ProviderMdib.find_state descriptor_handle
         (ProviderMdib.states (mdib w')) = Some st'
    /\ StateContainer.ActivationState st' = component_activation_state
    /\ StateContainer.MetricValue st'
       = (if ComponentActivation_eqb component_activation_state ON
          then StateContainer.MetricValue st
          else None)
    /\ journal w'
       = journal w
           ++ [ActivationWrite descriptor_handle component_activation_state].
Proof.
  intros Hg Hst.
  pose proof (find_state_handle _ _ _ Hst) as Hh.
  unfold DefaultWaveformSource.set_activation_state. rewrite Hg.
  unfold _SampleArrayGenerator.set_activation_state,
    _SampleArrayGenerator.is_active.
  destruct (ComponentActivation_eqb component_activation_state ON) eqn:E.
  - unfold bind, time_time, Transaction.get_state, Transaction.commit_state,
      get_mdib, set_mdib, ret, log. cbn. rewrite Hst. cbn. rewrite E. cbn.
    do 4 eexists. split; [reflexivity |]. cbn.
    rewrite Dict_get_set_same.
    do 4 (split; [reflexivity |]). cbn.
    split; [apply (find_state_replace _ _ _ st); assumption |].
    repeat split.
  - unfold bind, Transaction.get_state, Transaction.commit_state,
      get_mdib, set_mdib, ret, log. cbn. rewrite Hst. cbn. rewrite E. cbn.
    do 4 eexists. split; [reflexivity |]. cbn.
    rewrite Dict_get_set_same.
    do 4 (split; [reflexivity |]). cbn.
    split; [apply (find_state_replace _ _ _ st); assumption |].
    repeat split.
Qed.

(** *** DefaultWaveformSource: registration of annotators *)

Lemma Dict_set_keeps_nodup {V : Type} (k : string) (v : V) (d : Dict.t V) :
  NoDup (Dict.keys d) -> NoDup (Dict.keys (Dict.set k v d)).
Proof.
  intros H. rewrite Dict_keys_set. unfold Dict.mem.
  destruct (Dict.get k d) eqn:E; [assumption |].
  apply NoDup_app; [assumption | repeat constructor; simpl; tauto |].
  intros x Hx [<- | []]. apply Dict_get_in_keys in Hx. congruence.
Qed.

Lemma Dict_in_get {V : Type} (k : string) (v : V) (d : Dict.t V) :
  NoDup (Dict.keys d) -> (In (k, v) d <-> Dict.get k d = Some v).
Proof.
  induction d as [| [k' v'] rest IH]; simpl; intros H.
  - split; [tauto | discriminate].
  - inversion H as [| ? ? Hnot Hrest]; subst.
    destruct (String.eqb k k') eqn:E.
    + apply String.eqb_eq in E. subst k'. split.
      * intros [Heq | Hin]; [congruence |].
        exfalso. apply Hnot. unfold Dict.keys.
        change k with (fst (k, v)). now apply in_map.
      * intros Heq. left. congruence.
    + apply String.eqb_neq in E. rewrite <- (IH Hrest). split.
      * intros [Heq | Hin]; [congruence | assumption].
      * auto.
Qed.

Lemma Dict_set_set {V : Type} (k : string) (v1 v2 : V) (d : Dict.t V) :
  Dict.set k v2 (Dict.set k v1 d) = Dict.set k v2 d.
Proof.
  induction d as [| [k' v'] rest IH]; simpl.
  - now rewrite String.eqb_refl.
  - destruct (String.eqb k k') eqn:E; simpl; rewrite E; [reflexivity |].
    now rewrite IH.
Qed.

Lemma registered_annotators (annotators : list Annotator.t) :
  let self :=
    fold_left DefaultWaveformSource.register_annotation_generator annotators
              DefaultWaveformSource.__init__ in
  NoDup (Dict.keys (DefaultWaveformSource._annotators self))
  /\ forall h,
       Dict.get h (DefaultWaveformSource._annotators self)
       = find (fun a => String.eqb h (Annotator.trigger_handle a))
              (rev annotators).
Proof.
  induction annotators as [| a l IH] using rev_ind; cbv zeta.
  - split; [constructor | reflexivity].
  - rewrite fold_left_app, rev_unit. cbn [fold_left find].
    destruct IH as [IH1 IH2].
    unfold DefaultWaveformSource.register_annotation_generator at 1 3.
    cbn [DefaultWaveformSource._annotators
         DefaultWaveformSource.set_annotators].
    split; [now apply Dict_set_keeps_nodup |].
    intros h. destruct (String.eqb h (Annotator.trigger_handle a)) eqn:E.
    + apply String.eqb_eq in E. subst h. apply Dict_get_set_same.
    + apply String.eqb_neq in E.
      rewrite Dict_get_set_other by congruence. apply IH2.
Qed.

(** *** _SampleArrayGenerator: pacing *)

(** C3.  A new generator with the period 1 is polled twice, at the clock
    readings 0.0 and 2.5.  The first call stores the last time stamp 0.0;
    the second call finds it falsy in [self._last_timestamp or now], starts
    from its own reading of the clock and asks for no sample.  Two full
    periods have elapsed and no sample was emitted. *)
Theorem poll_from_clock_zero :
  exists rs self' w',
    poll 2 (_SampleArrayGenerator.__init__ "A" (Example.generator 1))
         (Example.world Example.clock_from_zero)
    = Ok ((rs, self'), w')
    /\ emitted_samples (heap w') rs = O
    /\ WaveformGenerator.position (_SampleArrayGenerator._generator self') = O
    /\ _SampleArrayGenerator._last_timestamp self' = Some (5 # 2)
    /\ Qfloor (((5 # 2) - 0) / 1) = 2%Z.
Proof.
  do 3 eexists. split; [vm_compute; reflexivity |].
  repeat split.
Qed.

(** *** Computations *)

Lemma bind_ok {A B : Type} (c : M A) (k : A -> M B) (w : World)
    (r : B * World) :
  bind c k w = Ok r -> exists a w', c w = Ok (a, w') /\ k a w' = Ok r.
Proof.
  unfold bind. destruct (c w) as [[a w'] | e]; [| discriminate].
  intros H. now exists a, w'.
Qed.

Lemma nth_error_new {A : Type} (l : list A) (x : A) :
  nth_error (l ++ [x]) (List.length l) = Some x.
Proof.
  rewrite nth_error_app2 by lia. now rewrite Nat.sub_diag.
Qed.

(** *** DefaultWaveformSource: the update cycle *)

(** What [get_next_sample_array] does for a generator that is ON, when it
    raises nothing. *)
Lemma get_next_sample_array_active (self : _SampleArrayGenerator.t)
    (w : World) (r : Ref) (self' : _SampleArrayGenerator.t) (w' : World) :
  _SampleArrayGenerator.is_active self = true ->
  _SampleArrayGenerator.get_next_sample_array self w = Ok ((r, self'), w') ->
  let now := clock w (ticks w) in
  let observation_time :=
    _SampleArrayGenerator.last_timestamp_or
      (_SampleArrayGenerator._last_timestamp self) now in
  let sampleperiod :=
    WaveformGenerator.sampleperiod (_SampleArrayGenerator._generator self) in
  let samples_count := Py.int ((now - observation_time) / sampleperiod) in
  let b :=
    RtSampleArray.__init__ (Some observation_time) sampleperiod
      (fst (WaveformGenerator.next_samples
              (_SampleArrayGenerator._generator self) samples_count)) ON in
  ~ sampleperiod == 0
  /\ r = List.length (heap w)
  /\ w' = {| heap := heap w ++ [b]; clock := clock w; ticks := S (ticks w);
             mdib := mdib w; journal := journal w |}
  /\ self'
     = {| _SampleArrayGenerator._descriptor_handle :=
            _SampleArrayGenerator._descriptor_handle self;
          _SampleArrayGenerator._last_timestamp :=
            Some (observation_time + sampleperiod * inject_Z samples_count);
          _SampleArrayGenerator._activation_state := ON;
          _SampleArrayGenerator._generator :=
            snd (WaveformGenerator.next_samples
                   (_SampleArrayGenerator._generator self) samples_count);
          _SampleArrayGenerator.current_rt_sample_array := Some r |}.
Proof.
  unfold _SampleArrayGenerator.is_active. intros Hon.
  assert (Hs : _SampleArrayGenerator._activation_state self = ON)
    by now apply ComponentActivation_eqb_eq.
  unfold _SampleArrayGenerator.get_next_sample_array.
  rewrite Hon. cbn [negb]. unfold bind at 1, time_time at 1.
  destruct (Qeq_bool
              (WaveformGenerator.sampleperiod
                 (_SampleArrayGenerator._generator self)) 0) eqn:Ez;
    [discriminate |].
  apply Qeq_bool_neq in Ez.
  destruct (WaveformGenerator.next_samples _ _) as [samples generator] eqn:En.
  unfold bind, new_object, ret. cbn. rewrite Hs.
  intros H. injection H as <- <- <-.
  repeat split; assumption.
Qed.

(** What [_update_rt_samples] does for the state record of a channel whose
    generator is ON, when it raises nothing: the generator makes a new
    sample array, the record is filled from it and a value write is made. *)
Lemma update_rt_samples_active (create_decimal : Q -> Q)
    (self : DefaultWaveformSource.t) (state : StateContainer.t) (w : World)
    (g : _SampleArrayGenerator.t)
    (self' : DefaultWaveformSource.t) (state' : StateContainer.t)
    (w' : World) :
  Dict.get (StateContainer.DescriptorHandle state)
           (DefaultWaveformSource._waveform_generators self) = Some g ->
  _SampleArrayGenerator.is_active g = true ->
  DefaultWaveformSource._update_rt_samples create_decimal self state w
  = Ok ((self', state'), w') ->
  exists g' observation_time samples,
    let sampleperiod :=
      WaveformGenerator.sampleperiod (_SampleArrayGenerator._generator g) in
    let b :=
      RtSampleArray.__init__ (Some observation_time) sampleperiod samples ON in
    self'
    = DefaultWaveformSource.set_waveform_generators self
        (Dict.set (StateContainer.DescriptorHandle state) g'
           (DefaultWaveformSource._waveform_generators self))
    /\ _SampleArrayGenerator.current_rt_sample_array g'
       = Some (List.length (heap w))
    /\ _SampleArrayGenerator._activation_state g' = ON
    /\ WaveformGenerator.sampleperiod (_SampleArrayGenerator._generator g')
       = sampleperiod
    /\ StateContainer.DescriptorHandle state'
       = StateContainer.DescriptorHandle state
    /\ w' = {| heap := heap w ++ [b]; clock := clock w; ticks := S (ticks w);
               mdib := mdib w;
               journal :=
                 journal w
                   ++ [ValueWrite (StateContainer.DescriptorHandle state)
                         sampleperiod] |}.
Proof.
  intros Hg Hon. unfold DefaultWaveformSource._update_rt_samples.
  rewrite Hg. intros H.
  apply bind_ok in H. destruct H as ([r g'] & w1 & Hnext & H).
  pose proof (get_next_sample_array_active g w r g' w1 Hon Hnext) as Hact.
  cbv zeta in Hact. destruct Hact as (_ & Hr & Hw1 & Hg').
  apply bind_ok in H. destruct H as (b & w2 & Hderef & H).
  unfold deref in Hderef. rewrite Hw1 in Hderef. cbn [heap] in Hderef.
  rewrite Hr, nth_error_new in Hderef. injection Hderef as <- <-.
  unfold bind, log, ret in H. cbn in H.
  injection H as <- <- <-.
  eexists g', _, _. cbv zeta.
  split; [destruct (StateContainer.MetricValue state); reflexivity |].
  split; [rewrite Hg'; cbn; now rewrite Hr |].
  split; [rewrite Hg'; reflexivity |].
  split; [rewrite Hg'; reflexivity |].
  split; [destruct (StateContainer.MetricValue state); reflexivity |].
  rewrite Hw1. cbn.
  destruct (StateContainer.MetricValue state); reflexivity.
Qed.

Lemma get_state_ok (h : string) (w : World) (state : StateContainer.t)
    (w' : World) :
  Transaction.get_state h w = Ok (state, w') ->
  w' = w /\ StateContainer.DescriptorHandle state = h.
Proof.
  unfold Transaction.get_state, bind, get_mdib.
  destruct (ProviderMdib.find_state h (ProviderMdib.states (mdib w)))
    as [s |] eqn:E; [| discriminate].
  unfold ret. intros H. injection H as <- <-.
  split; [reflexivity |]. now apply find_state_handle in E.
Qed.

(** The loop of the update cycle over pairwise different handles, when it
    raises nothing: it only adds sample arrays and value writes; a generator
    that is ON and whose handle is in the loop gets a sample array made in
    the loop; every other generator is left as it was. *)
Lemma update_generators_inv (create_decimal : Q -> Q) (handles : list string) :
  forall (self : DefaultWaveformSource.t)
         (transaction : RtDataMdibUpdateTransaction.t) (w : World)
         (self1 : DefaultWaveformSource.t)
         (transaction1 : RtDataMdibUpdateTransaction.t) (w1 : World),
    NoDup handles ->
    DefaultWaveformSource.update_generators create_decimal handles self
      transaction w = Ok ((self1, transaction1), w1) ->
    (exists bs, heap w1 = heap w ++ bs)
    /\ mdib w1 = mdib w
    /\ DefaultWaveformSource._annotators self1
       = DefaultWaveformSource._annotators self
    /\ Dict.keys (DefaultWaveformSource._waveform_generators self1)
       = Dict.keys (DefaultWaveformSource._waveform_generators self)
    /\ (exists vs,
          journal w1 = journal w ++ vs
          /\ Forall (value_write_of
                       (DefaultWaveformSource._waveform_generators self)) vs)
    /\ forall h g,
         Dict.get h (DefaultWaveformSource._waveform_generators self) = Some g ->
         exists g1,
           Dict.get h (DefaultWaveformSource._waveform_generators self1)
           = Some g1
           /\ WaveformGenerator.sampleperiod
                (_SampleArrayGenerator._generator g1)
              = WaveformGenerator.sampleperiod
                  (_SampleArrayGenerator._generator g)
           /\ _SampleArrayGenerator._activation_state g1
              = _SampleArrayGenerator._activation_state g
           /\ (In h handles ->
               _SampleArrayGenerator.is_active g = true ->
               exists r,
                 _SampleArrayGenerator.current_rt_sample_array g1 = Some r
                 /\ made_since w w1 g r)
           /\ (~ In h handles \/ _SampleArrayGenerator.is_active g = false ->
               g1 = g).
Proof.
  induction handles as [| h0 rest IH];
    intros self transaction w self1 transaction1 w1 Hnd H.
  - cbn in H. unfold ret in H. injection H as <- <- <-.
    split; [exists []; now rewrite app_nil_r |].
    do 3 (split; [reflexivity |]).
    split; [exists []; split; [now rewrite app_nil_r | constructor] |].
    intros h g Hg. exists g. do 3 (split; [assumption || reflexivity |]).
    split; [intros [] | reflexivity].
  - inversion Hnd as [| ? ? Hnot Hnd']; subst.
    cbn [DefaultWaveformSource.update_generators] in H.
    destruct (Dict.get h0 (DefaultWaveformSource._waveform_generators self))
      as [g0 |] eqn:E0.
    2: { (* no generator under the handle *)
      destruct (IH _ _ _ _ _ _ Hnd' H) as (Hh & Hm & Ha & Hk & Hj & Hg).
      do 5 (split; [assumption |]).
      intros h g Hget. destruct (Hg h g Hget) as (g1 & G1 & G2 & G3 & G4 & G5).
      exists g1. do 3 (split; [assumption |]).
      assert (Hne : h <> h0) by congruence.
      split.
      - intros [Hin | Hin]; [congruence | auto].
      - intros [Hn | Hi]; apply G5; [left | right; assumption].
        intros Hin. apply Hn. now right. }
    destruct (_SampleArrayGenerator.is_active g0) eqn:A0.
    2: { (* the generator is not ON *)
      destruct (IH _ _ _ _ _ _ Hnd' H) as (Hh & Hm & Ha & Hk & Hj & Hg).
      do 5 (split; [assumption |]).
      intros h g Hget. destruct (Hg h g Hget) as (g1 & G1 & G2 & G3 & G4 & G5).
      exists g1. do 3 (split; [assumption |]).
      split.
      - intros [Hin | Hin] Hact; [| auto].
        subst h0. congruence.
      - intros [Hn | Hi]; apply G5; [left | right; assumption].
        intros Hin. apply Hn. now right. }
    (* the generator is ON *)
    apply bind_ok in H. destruct H as (state & wa & Hstate & H).
    apply get_state_ok in Hstate. destruct Hstate as [-> Hh0].
    apply bind_ok in H. destruct H as ([self' state'] & wb & Hupd & H).
    rewrite <- Hh0 in E0.
    destruct (update_rt_samples_active _ _ _ _ _ _ _ _ E0 A0 Hupd)
      as (g0' & obs & samples & U).
    cbv zeta in U. destruct U as (Us & Uc & Ua & Up & _ & Uw).
    rewrite Hh0 in Us, Uw, E0.
    destruct (IH _ _ _ _ _ _ Hnd' H) as (Hh & Hm & Ha & Hk & Hj & Hg).
    rewrite Us in Ha, Hk, Hj, Hg.
    cbn [DefaultWaveformSource._annotators
         DefaultWaveformSource._waveform_generators
         DefaultWaveformSource.set_waveform_generators] in Ha, Hk, Hj, Hg.
    rewrite Uw in Hh, Hm, Hj. cbn [heap mdib journal] in Hh, Hm, Hj.
    destruct Hh as [bs Hh]. destruct Hj as (vs & Hj & Hvs).
    split; [eexists (_ :: bs); rewrite Hh, <- app_assoc; reflexivity |].
    do 2 (split; [assumption |]).
    split.
    { rewrite Hk, Dict_keys_set. unfold Dict.mem. now rewrite E0. }
    split.
    { exists (ValueWrite h0
                (WaveformGenerator.sampleperiod
                   (_SampleArrayGenerator._generator g0)) :: vs).
      split; [rewrite Hj, <- app_assoc; reflexivity |].
      constructor; [now exists h0, g0 |].
      eapply Forall_impl; [| exact Hvs].
      intros e (h & g & Hget & Hact & ->).
      destruct (string_dec h0 h) as [<- | Hne].
      - rewrite Dict_get_set_same in Hget. injection Hget as <-.
        exists h0, g0. now rewrite Up.
      - rewrite Dict_get_set_other in Hget by assumption. now exists h, g. }
    intros h g Hget.
    destruct (string_dec h0 h) as [<- | Hne].
    + assert (g = g0) by congruence. subst g.
      destruct (Hg h0 g0' (Dict_get_set_same _ _ _))
        as (g1 & G1 & G2 & G3 & _ & G5).
      exists g1. split; [assumption |].
      split; [congruence |].
      split.
      { rewrite G3, Ua. symmetry. now apply ComponentActivation_eqb_eq. }
      split; [| intros [Hn | Hi]; [exfalso; apply Hn; now left | congruence]].
      intros _ _. exists (List.length (heap w)).
      rewrite (G5 (or_introl Hnot)). split; [assumption |].
      unfold made_since. split; [lia |]. exists obs, samples.
      rewrite Hh, nth_error_app1 by (rewrite length_app; simpl; lia).
      apply nth_error_new.
    + rewrite <- (Dict_get_set_other h0 h g0') in Hget by assumption.
      destruct (Hg h g Hget) as (g1 & G1 & G2 & G3 & G4 & G5).
      exists g1. do 3 (split; [assumption |]).
      split.
      * intros [Hin | Hin] Hact; [congruence |].
        destruct (G4 Hin Hact) as (r & Hr & Hlen & Hmade).
        exists r. split; [assumption |].
        rewrite Uw in Hlen. cbn [heap] in Hlen. rewrite length_app in Hlen.
        unfold made_since. split; [lia | assumption].
      * intros [Hn | Hi]; apply G5; [left | right; assumption].
        intros Hin. apply Hn. now right.
Qed.

Lemma rt_sample_arrays_get (self : DefaultWaveformSource.t) (h : string) :
  Dict.get h (DefaultWaveformSource.rt_sample_arrays self)
  = option_map _SampleArrayGenerator.current_rt_sample_array
      (Dict.get h (DefaultWaveformSource._waveform_generators self)).
Proof.
  unfold DefaultWaveformSource.rt_sample_arrays.
  induction (DefaultWaveformSource._waveform_generators self)
    as [| [k g] rest IH]; simpl; [reflexivity |].
  now destruct (String.eqb h k).
Qed.

Lemma rt_sample_arrays_keys (self : DefaultWaveformSource.t) :
  Dict.keys (DefaultWaveformSource.rt_sample_arrays self)
  = Dict.keys (DefaultWaveformSource._waveform_generators self).
Proof.
  unfold DefaultWaveformSource.rt_sample_arrays, Dict.keys.
  rewrite map_map. apply map_ext. now intros [k g].
Qed.

(** When the loop over the generators of an update cycle has run without
    raising, the mapping that [_add_all_annotations] builds has the handles
    of the generators; a generator that is ON is mapped to a sample array
    made in this cycle; a generator that is not ON was skipped by the loop
    and is mapped to what it held before the cycle.
    [update_all_realtime_samples] annotates with exactly this mapping. *)
Lemma update_cycle_snapshot (create_decimal : Q -> Q)
    (self : DefaultWaveformSource.t)
    (transaction : RtDataMdibUpdateTransaction.t) (w : World)
    (self1 : DefaultWaveformSource.t)
    (transaction1 : RtDataMdibUpdateTransaction.t) (w1 : World) :
  NoDup (Dict.keys (DefaultWaveformSource._waveform_generators self)) ->
  DefaultWaveformSource.update_generators create_decimal
    (Dict.keys (DefaultWaveformSource._waveform_generators self))
    self transaction w = Ok ((self1, transaction1), w1) ->
  let snapshot := DefaultWaveformSource.rt_sample_arrays self1 in
  Dict.keys snapshot
  = Dict.keys (DefaultWaveformSource._waveform_generators self)
  /\ (forall h g,
        Dict.get h (DefaultWaveformSource._waveform_generators self) = Some g ->
        if _SampleArrayGenerator.is_active g
        then exists r, Dict.get h snapshot = Some (Some r)
                       /\ made_since w w1 g r
        else Dict.get h snapshot
             = Some (_SampleArrayGenerator.current_rt_sample_array g))
  /\ DefaultWaveformSource.update_all_realtime_samples create_decimal self
       transaction w
     = bind (DefaultWaveformSource.annotate_all snapshot
               (DefaultWaveformSource._annotators self1))
            (fun annotators =>
               ret (DefaultWaveformSource.set_annotators self1 annotators,
                    transaction1)) w1.
Proof.
  intros Hnd Hloop. cbv zeta.
  destruct (update_generators_inv _ _ _ _ _ _ _ _ Hnd Hloop)
    as (_ & _ & _ & Hk & _ & Hg).
  split; [now rewrite rt_sample_arrays_keys |]. split.
  - intros h g Hget. destruct (Hg h g Hget) as (g1 & G1 & _ & _ & G4 & G5).
    rewrite rt_sample_arrays_get, G1. cbn [option_map].
    destruct (_SampleArrayGenerator.is_active g) eqn:A.
    + assert (Hin : In h (Dict.keys
                            (DefaultWaveformSource._waveform_generators self))).
      { apply Dict_get_in_keys. congruence. }
      destruct (G4 Hin eq_refl) as (r & Hr & Hmade).
      exists r. now rewrite Hr.
    + now rewrite (G5 (or_intror eq_refl)).
  - unfold DefaultWaveformSource.update_all_realtime_samples.
    unfold bind at 1. rewrite Hloop.
    unfold DefaultWaveformSource._add_all_annotations.
    unfold bind. destruct (DefaultWaveformSource.annotate_all _ _ w1)
      as [[a w2] | e]; reflexivity.
Qed.

(** The calls of [Example.switch_off_A] raise nothing. *)
Lemma switch_off_A_runs :
  run (fun s => s) Example.switch_off_A DefaultWaveformSource.__init__
      (Example.world Example.clock_from_ten)
  = Ok (fst Example.switched_off, snd Example.switched_off).
Proof. vm_compute. reflexivity. Qed.

(** The calls of [Example.switch_off_before_update] raise nothing. *)
Lemma switch_off_before_update_runs :
  run (fun s => s) Example.switch_off_before_update
      DefaultWaveformSource.__init__ (Example.world Example.clock_from_ten)
  = Ok (fst Example.never_updated, snd Example.never_updated).
Proof. vm_compute. reflexivity. Qed.

(** C4.  Generators with the period 1 are registered for A and B, two update
    cycles are run and A is switched off.  In the next update cycle the loop
    over the generators runs without raising and skips A, whose generator is
    not ON; the mapping that [_add_all_annotations] builds then maps A to
    the sample array at the reference 2, which was in the store before the
    cycle: the array that A made in the second cycle, with its determination
    time 10, its five samples and the activation state ON, not an empty one
    without a determination time.  B, which is ON, is mapped to an array
    made in this cycle.  When A is switched off before any update cycle, the
    mapping of the first cycle maps A to [None], no sample array at all. *)
Theorem snapshot_of_switched_off_channel :
  exists self w self1 transaction1 w1 g b d,
    run (fun s => s) Example.switch_off_A DefaultWaveformSource.__init__
        (Example.world Example.clock_from_ten) = Ok (self, w)
    /\ DefaultWaveformSource.update_generators (fun s => s)
         (Dict.keys (DefaultWaveformSource._waveform_generators self))
         self RtDataMdibUpdateTransaction.__init__ w
       = Ok ((self1, transaction1), w1)
    /\ Dict.get "A" (DefaultWaveformSource._waveform_generators self1) = Some g
    /\ _SampleArrayGenerator.is_active g = false
    /\ Dict.get "A" (DefaultWaveformSource.rt_sample_arrays self1)
       = Some (Some 2%nat)
    /\ nth_error (heap w) 2 = Some b
    /\ nth_error (heap w1) 2 = Some b
    /\ RtSampleArray.determination_time b = Some d
    /\ d == 10
    /\ RtSampleArray.samples b = [1; -1; 1; -1; 1]
    /\ RtSampleArray.activation_state b = ON
    /\ Dict.get "B" (DefaultWaveformSource.rt_sample_arrays self1)
       = Some (Some (List.length (heap w)))
    /\ exists self0 w0 self2 transaction2 w2,
         run (fun s => s) Example.switch_off_before_update
             DefaultWaveformSource.__init__
             (Example.world Example.clock_from_ten) = Ok (self0, w0)
         /\ DefaultWaveformSource.update_generators (fun s => s)
              (Dict.keys (DefaultWaveformSource._waveform_generators self0))
              self0 RtDataMdibUpdateTransaction.__init__ w0
            = Ok ((self2, transaction2), w2)
         /\ Dict.get "A" (DefaultWaveformSource.rt_sample_arrays self2)
            = Some None.
Proof.
  exists (fst Example.switched_off), (snd Example.switched_off).
  eassert (Hloop :
             DefaultWaveformSource.update_generators (fun s => s)
               (Dict.keys
                  (DefaultWaveformSource._waveform_generators
                     (fst Example.switched_off)))
               (fst Example.switched_off)
               RtDataMdibUpdateTransaction.__init__
               (snd Example.switched_off)
             = Ok ((_, _), _)).
  { vm_compute. reflexivity. }
  eexists _, _, _, _, _, _.
  split; [exact switch_off_A_runs |].
  split; [exact Hloop |].
  split; [vm_compute; reflexivity |].
  split; [vm_compute; reflexivity |].
  split; [vm_compute; reflexivity |].
  split; [vm_compute; reflexivity |].
  split; [vm_compute; reflexivity |].
  split; [vm_compute; reflexivity |].
  split; [vm_compute; reflexivity |].
  split; [vm_compute; reflexivity |].
  split; [vm_compute; reflexivity |].
  split; [vm_compute; reflexivity |].
  exists (fst Example.never_updated), (snd Example.never_updated).
  eassert (Hloop0 :
             DefaultWaveformSource.update_generators (fun s => s)
               (Dict.keys
                  (DefaultWaveformSource._waveform_generators
                     (fst Example.never_updated)))
               (fst Example.never_updated)
               RtDataMdibUpdateTransaction.__init__
               (snd Example.never_updated)
             = Ok ((_, _), _)).
  { vm_compute. reflexivity. }
  eexists _, _, _.
  split; [exact switch_off_before_update_runs |].
  split; [exact Hloop0 |].
  vm_compute. reflexivity.
Qed.

Lemma get_next_sample_array_inactive_witness :
  let self :=
    {| _SampleArrayGenerator._descriptor_handle := "A";
       _SampleArrayGenerator._last_timestamp := Some 10;
       _SampleArrayGenerator._activation_state := STANDBY;
       _SampleArrayGenerator._generator := Example.generator (1 # 100);
       _SampleArrayGenerator.current_rt_sample_array := None |} in
  _SampleArrayGenerator._activation_state self <> ON
  /\ exists self' w',
       _SampleArrayGenerator.get_next_sample_array self
         (Example.world Example.clock_from_ten) = Ok ((O, self'), w')
       /\ _SampleArrayGenerator._generator self' = Example.generator (1 # 100)
       /\ heap w'
          = [{| RtSampleArray.determination_time := None;
                RtSampleArray.sample_period := 1 # 100;
                RtSampleArray.samples := [];
                RtSampleArray.activation_state := STANDBY;
                RtSampleArray.annotations := [];
                RtSampleArray.apply_annotations := [] |}]
       /\ ticks w' = O.
Proof.
  cbv zeta. split; [discriminate |].
  eexists _, _. split.
  - apply (get_next_sample_array_inactive
             {| _SampleArrayGenerator._descriptor_handle := "A";
                _SampleArrayGenerator._last_timestamp := Some 10;
                _SampleArrayGenerator._activation_state := STANDBY;
                _SampleArrayGenerator._generator := Example.generator (1 # 100);
                _SampleArrayGenerator.current_rt_sample_array := None |}
             (Example.world Example.clock_from_ten)).
    discriminate.
  - repeat split.
Defined.

Lemma set_activation_state_spec_witness :
  let self := fst Example.switched_off in
  let w := snd Example.switched_off in
  exists g st,
    Dict.get "B" (DefaultWaveformSource._waveform_generators self) = Some g
    /\ ProviderMdib.find_state "B" (ProviderMdib.states (mdib w)) = Some st
    /\ StateContainer.MetricValue st <> None
    /\ exists self' w' g' st',
         DefaultWaveformSource.set_activation_state self "B" OFF w
         = Ok (self', w')
         /\ Dict.get "B" (DefaultWaveformSource._waveform_generators self')
            = Some g'
         /\ _SampleArrayGenerator._activation_state g' = OFF
         /\ _SampleArrayGenerator._last_timestamp g'
            = _SampleArrayGenerator._last_timestamp g
         /\ ProviderMdib.find_state "B" (ProviderMdib.states (mdib w'))
            = Some st'
         /\ StateContainer.ActivationState st' = OFF
         /\ StateContainer.MetricValue st' = None.
Proof.
  cbv zeta.
  eassert (Hg : Dict.get "B"
                  (DefaultWaveformSource._waveform_generators
                     (fst Example.switched_off)) = Some _).
  { vm_compute. reflexivity. }
  eassert (Hst : ProviderMdib.find_state "B"
                   (ProviderMdib.states (mdib (snd Example.switched_off)))
                 = Some _).
  { vm_compute. reflexivity. }
  eexists _, _.
  split; [exact Hg |]. split; [exact Hst |]. split; [discriminate |].
  destruct (set_activation_state_spec (fst Example.switched_off) "B" OFF
              (snd Example.switched_off) _ _ Hg Hst)
    as (self' & w' & g' & st' & H1 & H2 & H3 & _ & H5 & H6 & H7 & H8 & _).
  exists self', w', g', st'.
  repeat split; assumption.
Defined.

(** *** RtSampleArray: what annotating changes *)

Lemma add_annotations_at_effect (self : RtSampleArray.t)
    (annotation : Annotation) (timestamps : list Q) :
  let after := RtSampleArray.add_annotations_at self annotation timestamps in
  RtSampleArray.determination_time after
  = RtSampleArray.determination_time self
  /\ RtSampleArray.sample_period after = RtSampleArray.sample_period self
  /\ RtSampleArray.samples after = RtSampleArray.samples self
  /\ RtSampleArray.activation_state after
     = RtSampleArray.activation_state self
  /\ RtSampleArray.annotations after
     = match resolved_indices self timestamps with
       | [] => RtSampleArray.annotations self
       | _ :: _ => RtSampleArray.annotations self ++ [annotation]
       end
  /\ RtSampleArray.apply_annotations after
     = RtSampleArray.apply_annotations self
         ++ map (fun i =>
                   {| AnnotationIndex :=
                        Py.len (RtSampleArray.annotations self);
                      SampleIndex := i |})
                (resolved_indices self timestamps).
Proof.
  cbv zeta. unfold RtSampleArray.add_annotations_at.
  rewrite add_annotations_fold.
  destruct (resolved_indices self timestamps); repeat split.
Qed.

(** X4.  Annotating keeps the annotation indices of a sample array valid.  When
    every reference names an annotation before [add_annotations_at], every
    reference names one after it; the references that were there are still
    there, in their places, and each names the annotation it named before;
    and every reference that the call appends names the annotation of the
    call.  This holds whatever sample indices the time stamps resolve to. *)
Theorem add_annotations_at_keeps_annotation_indices (self : RtSampleArray.t)
    (annotation : Annotation) (timestamps : list Q) :
  annotation_indices_valid self ->
  let after := RtSampleArray.add_annotations_at self annotation timestamps in
  annotation_indices_valid after
  /\ exists new,
       RtSampleArray.apply_annotations after
       = RtSampleArray.apply_annotations self ++ new
       /\ Forall (fun a => named_annotation after a = named_annotation self a)
                 (RtSampleArray.apply_annotations self)
       /\ Forall (fun a => named_annotation after a = Some annotation) new.
Proof.
  unfold annotation_indices_valid, named_annotation. intros H. cbv zeta.
  destruct (add_annotations_at_effect self annotation timestamps)
    as (_ & _ & _ & _ & E5 & E6).
  rewrite E6, E5. clear E5 E6.
  set (n := Py.len (RtSampleArray.annotations self)).
  assert (Hn : Z.to_nat n = List.length (RtSampleArray.annotations self)).
  { unfold n, Py.len. apply Nat2Z.id. }
  split; [| eexists; split; [reflexivity | split]].
  - apply Forall_app. split.
    + eapply Forall_impl; [| exact H]. cbv beta. intros a Ha.
      destruct (resolved_indices self timestamps); [assumption |].
      unfold Py.len in *. rewrite length_app. simpl. lia.
    + destruct (resolved_indices self timestamps) as [| i rest];
        [constructor |].
      apply Forall_map, Forall_forall. intros j _.
      cbn [AnnotationIndex]. fold n. unfold Py.len.
      rewrite length_app. simpl. unfold n, Py.len. lia.
  - eapply Forall_impl; [| exact H]. cbv beta. intros a Ha.
    destruct (resolved_indices self timestamps); [reflexivity |].
    apply nth_error_app1. fold n in Ha. lia.
  - destruct (resolved_indices self timestamps) as [| i rest];
      [constructor |].
    apply Forall_map, Forall_forall. intros j _.
    cbn [AnnotationIndex]. rewrite Hn.
    rewrite nth_error_app2 by lia. now rewrite Nat.sub_diag.
Qed.

(** *** The object store under annotation *)

Lemma list_update_length {A : Type} (f : A -> A) (l : list A) :
  forall n, List.length (list_update l n f) = List.length l.
Proof.
  induction l as [| x rest IH]; intros [| n]; simpl; auto.
Qed.

Lemma list_update_nth_same {A : Type} (f : A -> A) (l : list A) :
  forall n, nth_error (list_update l n f) n = option_map f (nth_error l n).
Proof.
  induction l as [| x rest IH]; intros [| n]; simpl; auto.
Qed.

Lemma list_update_nth_other {A : Type} (f : A -> A) (l : list A) :
  forall n m, n <> m -> nth_error (list_update l n f) m = nth_error l m.
Proof.
  induction l as [| x rest IH]; intros [| n] [| m] H; simpl; auto.
  congruence.
Qed.

Lemma prefix_refl {A : Type} (l : list A) : exists more, l = l ++ more.
Proof. exists []. now rewrite app_nil_r. Qed.

Lemma prefix_trans {A : Type} (l1 l2 l3 : list A) :
  (exists more, l2 = l1 ++ more) ->
  (exists more, l3 = l2 ++ more) ->
  exists more, l3 = l1 ++ more.
Proof.
  intros [m1 ->] [m2 ->]. exists (m1 ++ m2). now rewrite app_assoc.
Qed.

Lemma annotated_array_refl (b : RtSampleArray.t) : annotated_array b b.
Proof.
  unfold annotated_array. repeat split; try reflexivity; apply prefix_refl.
Qed.

Lemma annotated_array_trans (b1 b2 b3 : RtSampleArray.t) :
  annotated_array b1 b2 -> annotated_array b2 b3 -> annotated_array b1 b3.
Proof.
  unfold annotated_array.
  intros (A1 & A2 & A3 & A4 & A5 & A6) (B1 & B2 & B3 & B4 & B5 & B6).
  repeat split; try congruence; eapply prefix_trans; eassumption.
Qed.

Lemma add_annotations_at_annotated (self : RtSampleArray.t)
    (annotation : Annotation) (timestamps : list Q) :
  annotated_array self
    (RtSampleArray.add_annotations_at self annotation timestamps).
Proof.
  destruct (add_annotations_at_effect self annotation timestamps)
    as (E1 & E2 & E3 & E4 & E5 & E6).
  unfold annotated_array. repeat split; try assumption.
  - rewrite E5. destruct (resolved_indices self timestamps);
      [apply prefix_refl | now eexists].
  - rewrite E6. now eexists.
Qed.

Lemma only_annotated_refl (w : World) : only_annotated w w.
Proof.
  unfold only_annotated. repeat split; try reflexivity.
  intros r b H. exists b. split; [assumption | apply annotated_array_refl].
Qed.

Lemma only_annotated_trans (w1 w2 w3 : World) :
  only_annotated w1 w2 -> only_annotated w2 w3 -> only_annotated w1 w3.
Proof.
  unfold only_annotated.
  intros (A1 & A2 & A3 & A4 & A5 & A6) (B1 & B2 & B3 & B4 & B5 & B6).
  repeat split; try congruence.
  intros r b H. destruct (A6 r b H) as (b2 & H2 & Hb2).
  destruct (B6 r b2 H2) as (b3 & H3 & Hb3).
  exists b3. split; [assumption |].
  eapply annotated_array_trans; eassumption.
Qed.

Lemma mutate_only_annotated (r : Ref) (annotation : Annotation)
    (timestamps : list Q) (w w' : World) :
  mutate r (fun b => RtSampleArray.add_annotations_at b annotation timestamps)
         w = Ok (tt, w') ->
  only_annotated w w'.
Proof.
  unfold mutate. destruct (nth_error (heap w) r) as [b0 |] eqn:E;
    [| discriminate].
  intros H. injection H as <-. unfold only_annotated. cbn.
  repeat split; try reflexivity.
  - apply list_update_length.
  - intros r' b Hb. destruct (Nat.eq_dec r r') as [<- | Hne].
    + rewrite list_update_nth_same, Hb. cbn. eexists. split; [reflexivity |].
      apply add_annotations_at_annotated.
    + rewrite list_update_nth_other by assumption.
      exists b. split; [assumption | apply annotated_array_refl].
Qed.

(** *** DefaultWaveformSource: what the annotation phase changes *)

Lemma annotate_handles_only_annotated (arrays : Dict.t (option Ref))
    (annotation : Annotation) (timestamps : list Q)
    (dest_handles : list string) :
  forall (w w' : World) (u : unit),
    DefaultWaveformSource.annotate_handles arrays annotation timestamps
      dest_handles w = Ok (u, w') ->
    only_annotated w w'.
Proof.
  induction dest_handles as [| h rest IH]; intros w w' u H.
  - cbn in H. unfold ret in H. injection H as _ <-.
    apply only_annotated_refl.
  - cbn [DefaultWaveformSource.annotate_handles] in H.
    apply bind_ok in H. destruct H as ([] & w1 & H1 & H2).
    apply IH in H2. eapply only_annotated_trans; [| exact H2].
    destruct (Dict.get h arrays) as [[r |] |].
    + eapply mutate_only_annotated. exact H1.
    + discriminate.
    + unfold ret in H1. injection H1 as <-. apply only_annotated_refl.
Qed.

Lemma get_annotation_timestamps_keeps (self self' : Annotator.t)
    (b : RtSampleArray.t) (timestamps : list Q) :
  Annotator.get_annotation_timestamps self b = Ok (timestamps, self') ->
  same_annotator self self'.
Proof.
  unfold Annotator.get_annotation_timestamps.
  destruct (Annotator.timestamps_loop _ _ _ _ _ _) as [[ret lv] | e];
    [| discriminate].
  intros H. injection H as _ <-. repeat split.
Qed.

Lemma annotate_all_only_annotated (arrays : Dict.t (option Ref))
    (items : list (string * Annotator.t)) :
  forall (w w' : World) (items' : Dict.t Annotator.t),
    DefaultWaveformSource.annotate_all arrays items w = Ok (items', w') ->
    only_annotated w w'
    /\ Forall2 (fun x y => fst y = fst x /\ same_annotator (snd x) (snd y))
               items items'.
Proof.
  induction items as [| [h a] rest IH]; intros w w' items' H.
  - cbn in H. unfold ret in H. injection H as <- <-.
    split; [apply only_annotated_refl | constructor].
  - cbn [DefaultWaveformSource.annotate_all] in H.
    apply bind_ok in H. destruct H as (a' & w1 & H1 & H2).
    apply bind_ok in H2. destruct H2 as (rest' & w2 & H2 & H3).
    unfold ret in H3. injection H3 as <- <-.
    destruct (IH _ _ _ H2) as [Hw Hrest].
    assert (Hstep : only_annotated w w1 /\ same_annotator a a').
    { destruct (Dict.get h arrays) as [[r |] |].
      - apply bind_ok in H1. destruct H1 as (b & wb & Hb & H1).
        unfold deref in Hb.
        destruct (nth_error (heap w) r) as [b0 |]; [| discriminate].
        injection Hb as <- <-.
        destruct (Annotator.get_annotation_timestamps a b0)
          as [[timestamps a1] |] eqn:Et; [| discriminate].
        apply get_annotation_timestamps_keeps in Et.
        apply bind_ok in H1. destruct H1 as ([] & wc & Hc & H1).
        unfold ret in H1. injection H1 as <- <-.
        split; [| assumption].
        destruct timestamps as [| t ts].
        + unfold ret in Hc. injection Hc as <-. apply only_annotated_refl.
        + eapply annotate_handles_only_annotated. exact Hc.
      - discriminate.
      - unfold ret in H1. injection H1 as <- <-.
        split; [apply only_annotated_refl | repeat split]. }
    destruct Hstep as [Hw1 Ha].
    split; [eapply only_annotated_trans; eassumption |].
    constructor; [split; [reflexivity | assumption] | assumption].
Qed.

(** *** DefaultWaveformSource: the annotators that run in a cycle *)

Lemma get_annotation_timestamps_annotated (a : Annotator.t)
    (b b' : RtSampleArray.t) :
  annotated_array b b' ->
  Annotator.get_annotation_timestamps a b'
  = Annotator.get_annotation_timestamps a b.
Proof.
  intros (E1 & E2 & E3 & _). unfold Annotator.get_annotation_timestamps.
  now rewrite E1, E2, E3.
Qed.

Lemma annotated_by_refl (P : Annotation -> Prop) (w : World) :
  annotated_by P w w.
Proof.
  intros r b H. exists b, []. rewrite app_nil_r. repeat split; auto.
Qed.

Lemma annotated_by_trans (P : Annotation -> Prop) (w1 w2 w3 : World) :
  annotated_by P w1 w2 -> annotated_by P w2 w3 -> annotated_by P w1 w3.
Proof.
  intros H12 H23 r b H.
  destruct (H12 r b H) as (b2 & m2 & N2 & A2 & F2).
  destruct (H23 r b2 N2) as (b3 & m3 & N3 & A3 & F3).
  exists b3, (m2 ++ m3). split; [assumption |]. split.
  - now rewrite A3, A2, app_assoc.
  - apply Forall_app. now split.
Qed.

Lemma annotated_by_impl (P Q : Annotation -> Prop) (w w' : World) :
  (forall x, P x -> Q x) -> annotated_by P w w' -> annotated_by Q w w'.
Proof.
  intros HPQ H r b Hb. destruct (H r b Hb) as (b' & more & N & A & F).
  exists b', more. repeat split; try assumption.
  eapply Forall_impl; [| exact F]. exact HPQ.
Qed.

Lemma mutate_annotated_by (r : Ref) (annotation : Annotation)
    (timestamps : list Q) (w w' : World) :
  mutate r (fun b => RtSampleArray.add_annotations_at b annotation timestamps)
         w = Ok (tt, w') ->
  annotated_by (eq annotation) w w'.
Proof.
  unfold mutate. destruct (nth_error (heap w) r) as [b0 |] eqn:E;
    [| discriminate].
  intros H. injection H as <-. intros r' b Hb. cbn [heap].
  destruct (Nat.eq_dec r r') as [<- | Hne].
  - rewrite list_update_nth_same, Hb. cbn [option_map].
    destruct (add_annotations_at_effect b annotation timestamps)
      as (_ & _ & _ & _ & E5 & _).
    eexists. destruct (resolved_indices b timestamps).
    + exists []. split; [reflexivity |]. rewrite E5.
      split; [symmetry; apply app_nil_r | constructor].
    + exists [annotation]. split; [reflexivity |]. rewrite E5.
      split; [reflexivity | repeat constructor].
  - rewrite list_update_nth_other by assumption.
    exists b, []. rewrite app_nil_r. repeat split; auto.
Qed.

Lemma annotate_handles_annotated_by (arrays : Dict.t (option Ref))
    (annotation : Annotation) (timestamps : list Q)
    (dest_handles : list string) :
  forall (w w' : World) (u : unit),
    DefaultWaveformSource.annotate_handles arrays annotation timestamps
      dest_handles w = Ok (u, w') ->
    annotated_by (eq annotation) w w'.
Proof.
  induction dest_handles as [| h rest IH]; intros w w' u H.
  - cbn in H. unfold ret in H. injection H as _ <-.
    apply annotated_by_refl.
  - cbn [DefaultWaveformSource.annotate_handles] in H.
    apply bind_ok in H. destruct H as ([] & w1 & H1 & H2).
    apply IH in H2. eapply annotated_by_trans; [| exact H2].
    destruct (Dict.get h arrays) as [[r |] |].
    + eapply mutate_annotated_by. exact H1.
    + discriminate.
    + unfold ret in H1. injection H1 as <-. apply annotated_by_refl.
Qed.

(** The loop over the annotators, when it raises nothing, from a world
    that is [w0] with annotations added: every annotator of the loop has run
    once, on its sample array as it is in [w0], and what was added to the
    sample arrays are annotations of the annotators of the loop. *)
Lemma annotate_all_runs (arrays : Dict.t (option Ref)) (w0 : World)
    (items : list (string * Annotator.t)) :
  forall (w w' : World) (items' : Dict.t Annotator.t),
    only_annotated w0 w ->
    DefaultWaveformSource.annotate_all arrays items w = Ok (items', w') ->
    Forall2 (annotator_ran arrays (heap w0)) items items'
    /\ annotated_by
         (fun x => exists y, In y items /\ Annotator.annotation (snd y) = x)
         w w'.
Proof.
  induction items as [| [h a] rest IH]; intros w w' items' H0 H.
  - cbn in H. unfold ret in H. injection H as <- <-.
    split; [constructor | apply annotated_by_refl].
  - cbn [DefaultWaveformSource.annotate_all] in H.
    apply bind_ok in H. destruct H as (a' & w1 & H1 & H2).
    apply bind_ok in H2. destruct H2 as (rest' & w2 & H2 & H3).
    unfold ret in H3. injection H3 as <- <-.
    assert (Hstep : annotator_ran arrays (heap w0) (h, a) (h, a')
                    /\ only_annotated w w1
                    /\ annotated_by (eq (Annotator.annotation a)) w w1).
    { unfold annotator_ran. cbn [fst snd].
      destruct (Dict.get h arrays) as [[r |] |].
      - apply bind_ok in H1. destruct H1 as (b & wb & Hb & H1).
        unfold deref in Hb.
        destruct (nth_error (heap w) r) as [bw |] eqn:Er; [| discriminate].
        injection Hb as <- <-.
        destruct (Annotator.get_annotation_timestamps a bw)
          as [[timestamps a1] |] eqn:Et; [| discriminate].
        pose proof (get_annotation_timestamps_keeps _ _ _ _ Et) as Ha1.
        apply bind_ok in H1. destruct H1 as ([] & wc & Hc & H1).
        unfold ret in H1. injection H1 as <- <-.
        destruct H0 as (_ & _ & _ & _ & Hlen & Harr).
        assert (Hr : (r < List.length (heap w0))%nat).
        { rewrite <- Hlen. apply nth_error_Some. congruence. }
        destruct (nth_error (heap w0) r) as [b0 |] eqn:E0;
          [| apply nth_error_None in E0; lia].
        destruct (Harr r b0 E0) as (b' & Hb' & Hann).
        assert (b' = bw) by congruence. subst b'.
        rewrite (get_annotation_timestamps_annotated a b0 bw Hann) in Et.
        split; [| split].
        + split; [reflexivity |]. now exists b0, timestamps.
        + destruct timestamps as [| t ts].
          * unfold ret in Hc. injection Hc as <-. apply only_annotated_refl.
          * eapply annotate_handles_only_annotated. exact Hc.
        + destruct timestamps as [| t ts].
          * unfold ret in Hc. injection Hc as <-. apply annotated_by_refl.
          * destruct Ha1 as (Ea & _). rewrite <- Ea.
            eapply annotate_handles_annotated_by. exact Hc.
      - discriminate.
      - unfold ret in H1. injection H1 as <- <-.
        split; [split; reflexivity |].
        split; [apply only_annotated_refl | apply annotated_by_refl]. }
    destruct Hstep as (Hran & Hw1 & Hby).
    destruct (IH w1 w2 rest' (only_annotated_trans _ _ _ H0 Hw1) H2)
      as [Hrest Hby2].
    split; [constructor; assumption |].
    eapply annotated_by_trans.
    + eapply annotated_by_impl; [| exact Hby].
      intros x <-. exists (h, a). split; [now left | reflexivity].
    + eapply annotated_by_impl; [| exact Hby2].
      intros x (y & Hy & <-). exists y. split; [now right | reflexivity].
Qed.

Lemma update_rt_samples_annotators (create_decimal : Q -> Q)
    (self : DefaultWaveformSource.t) (state : StateContainer.t) (w : World)
    (self' : DefaultWaveformSource.t) (state' : StateContainer.t)
    (w' : World) :
  DefaultWaveformSource._update_rt_samples create_decimal self state w
  = Ok ((self', state'), w') ->
  DefaultWaveformSource._annotators self'
  = DefaultWaveformSource._annotators self.
Proof.
  unfold DefaultWaveformSource._update_rt_samples.
  destruct (Dict.get _ _) as [g |].
  - intros H. apply bind_ok in H. destruct H as ([r g'] & w1 & _ & H).
    apply bind_ok in H. destruct H as (b & w2 & _ & H).
    apply bind_ok in H. destruct H as ([] & w3 & _ & H).
    unfold ret in H. injection H as <- _ _. reflexivity.
  - unfold ret. intros H. injection H as <- _ _. reflexivity.
Qed.

(** The loop over the generators leaves the annotators as they are. *)
Lemma update_generators_annotators (create_decimal : Q -> Q)
    (handles : list string) :
  forall (self : DefaultWaveformSource.t)
         (transaction : RtDataMdibUpdateTransaction.t) (w : World)
         (self1 : DefaultWaveformSource.t)
         (transaction1 : RtDataMdibUpdateTransaction.t) (w1 : World),
    DefaultWaveformSource.update_generators create_decimal handles self
      transaction w = Ok ((self1, transaction1), w1) ->
    DefaultWaveformSource._annotators self1
    = DefaultWaveformSource._annotators self.
Proof.
  induction handles as [| h rest IH];
    intros self transaction w self1 transaction1 w1 H.
  - cbn in H. unfold ret in H. injection H as <- _ _. reflexivity.
  - cbn [DefaultWaveformSource.update_generators] in H.
    destruct (Dict.get h (DefaultWaveformSource._waveform_generators self))
      as [g |]; [| now apply IH in H].
    destruct (_SampleArrayGenerator.is_active g); [| now apply IH in H].
    apply bind_ok in H. destruct H as (state & wa & _ & H).
    apply bind_ok in H. destruct H as ([self2 state2] & wb & Hu & H).
    apply IH in H. rewrite H.
    eapply update_rt_samples_annotators. exact Hu.
Qed.

Lemma same_annotators_in (d1 d2 : Dict.t Annotator.t)
    (y : string * Annotator.t) :
  same_annotators d1 d2 -> In y d2 ->
  exists x, In x d1 /\ fst y = fst x /\ same_annotator (snd x) (snd y).
Proof.
  unfold same_annotators.
  induction 1 as [| x y' l1 l2 Hxy _ IH]; intros Hin; [contradiction |].
  destruct Hin as [<- | Hin].
  - exists x. split; [now left | exact Hxy].
  - destruct (IH Hin) as (x0 & Hx0 & Hr). exists x0.
    split; [now right | exact Hr].
Qed.

Lemma same_annotators_trans (d1 d2 d3 : Dict.t Annotator.t) :
  same_annotators d1 d2 -> same_annotators d2 d3 -> same_annotators d1 d3.
Proof.
  unfold same_annotators. intros H12. revert d3.
  induction H12 as [| x y l1 l2 (K & A1 & A2 & A3) _ IH]; intros d3 H23;
    inversion H23 as [| y' z l2' l3 (K' & B1 & B2 & B3) Hrest]; subst;
    constructor.
  - unfold same_annotator. repeat split; congruence.
  - now apply IH.
Qed.

(** C10.  After any sequence of registrations the annotators are kept under
    pairwise different trigger handles, and the annotator kept under a
    handle is the one registered last with it: an entry [(h, a)] is among
    the annotators exactly when [a] is the first one with the trigger handle
    [h] in the sequence read backwards.  Registering an annotator after
    another one with its trigger handle leaves the source as if the earlier
    one had not been registered.  The kept annotators are the ones, and the
    only ones, that an update cycle runs.  Take a source that holds the kept
    annotators, with whatever last values, and whatever generators, and an
    update cycle on it that raises nothing.  After the loop over the
    generators, each kept annotator whose handle has a generator has run
    once: [get_annotation_timestamps] was called on it, with the current
    sample array of the generator, and the annotator it left is kept under
    the handle for the next cycle; a kept annotator whose handle has no
    generator is left as it is.  Every annotation that the cycle adds to a
    sample array is the annotation of the annotator registered last with
    some handle; nothing is added for an annotator that was replaced.  The
    source holds the kept annotators again, so the same is true of the
    cycles that follow. *)
Theorem register_annotation_generator_keeps_latest
    (annotators : list Annotator.t) :
  let kept :=
    DefaultWaveformSource._annotators
      (fold_left DefaultWaveformSource.register_annotation_generator
                 annotators DefaultWaveformSource.__init__) in
  let latest (h : string) :=
    find (fun a' => String.eqb h (Annotator.trigger_handle a'))
         (rev annotators) in
  NoDup (Dict.keys kept)
  /\ (forall h a, In (h, a) kept <-> latest h = Some a)
  /\ (forall (source : DefaultWaveformSource.t) (first : Annotator.t)
             (annotation : Annotation) (annotated_handles : list string)
             (last_value : Q),
        let second :=
          {| Annotator.annotation := annotation;
             Annotator.trigger_handle := Annotator.trigger_handle first;
             Annotator.annotated_handles := annotated_handles;
             Annotator._last_value := last_value |} in
        DefaultWaveformSource.register_annotation_generator
          (DefaultWaveformSource.register_annotation_generator source first)
          second
        = DefaultWaveformSource.register_annotation_generator source second)
  /\ (forall (create_decimal : Q -> Q) (self : DefaultWaveformSource.t)
             (transaction : RtDataMdibUpdateTransaction.t) (w : World)
             (self' : DefaultWaveformSource.t)
             (transaction' : RtDataMdibUpdateTransaction.t) (w' : World),
        same_annotators kept (DefaultWaveformSource._annotators self) ->
        DefaultWaveformSource.update_all_realtime_samples create_decimal
          self transaction w = Ok ((self', transaction'), w') ->
        exists self1 w1,
          DefaultWaveformSource.update_generators create_decimal
            (Dict.keys (DefaultWaveformSource._waveform_generators self))
            self transaction w = Ok ((self1, transaction'), w1)
          /\ Forall2 (annotator_ran
                        (DefaultWaveformSource.rt_sample_arrays self1)
                        (heap w1))
                     (DefaultWaveformSource._annotators self)
                     (DefaultWaveformSource._annotators self')
          /\ annotated_by
               (fun x =>
                  exists h a, latest h = Some a /\ Annotator.annotation a = x)
               w1 w'
          /\ same_annotators kept (DefaultWaveformSource._annotators self')).
Proof.
  cbv zeta. destruct (registered_annotators annotators) as [N G].
  assert (L : forall h a,
            In (h, a)
               (DefaultWaveformSource._annotators
                  (fold_left
                     DefaultWaveformSource.register_annotation_generator
                     annotators DefaultWaveformSource.__init__))
            <-> find (fun a' => String.eqb h (Annotator.trigger_handle a'))
                     (rev annotators) = Some a).
  { intros h a. rewrite (Dict_in_get h a _ N). now rewrite G. }
  split; [exact N |]. split; [exact L |]. split.
  - intros source first annotation annotated_handles last_value.
    unfold DefaultWaveformSource.register_annotation_generator,
      DefaultWaveformSource.set_annotators. simpl.
    now rewrite Dict_set_set.
  - intros create_decimal self transaction w self' transaction' w' Hkept H.
    unfold DefaultWaveformSource.update_all_realtime_samples in H.
    apply bind_ok in H. destruct H as ([self1 transaction1] & w1 & Hloop & H).
    apply bind_ok in H. destruct H as (self2 & w2 & Hadd & H).
    unfold ret in H. injection H as <- <- <-.
    unfold DefaultWaveformSource._add_all_annotations in Hadd.
    apply bind_ok in Hadd. destruct Hadd as (items' & w3 & Hall & Hadd).
    unfold ret in Hadd. injection Hadd as <- <-.
    cbn [DefaultWaveformSource._annotators
         DefaultWaveformSource.set_annotators].
    pose proof (update_generators_annotators _ _ _ _ _ _ _ _ Hloop) as Ea.
    rewrite Ea in Hall.
    destruct (annotate_all_runs _ w1 _ _ _ _ (only_annotated_refl w1) Hall)
      as [Hran Hby].
    destruct (annotate_all_only_annotated _ _ _ _ _ Hall) as [_ Hsame].
    exists self1, w1. split; [exact Hloop |]. split; [exact Hran |].
    split; [| eapply same_annotators_trans; eassumption].
    eapply annotated_by_impl; [| exact Hby].
    intros x ([h a] & Hin & <-). cbn [snd].
    destruct (same_annotators_in _ _ (h, a) Hkept Hin)
      as ([h0 a0] & Hin0 & Hk & Ha & _).
    cbn [fst snd] in Hk, Ha. subst h0.
    exists h, a0. split; [now apply L | now rewrite Ha].
Qed.

Lemma register_annotation_generator_keeps_latest_witness :
  let self := fst Example.replaced in
  let w := snd Example.replaced in
  exists self' transaction' w' b,
    DefaultWaveformSource.update_all_realtime_samples (fun s => s) self
      RtDataMdibUpdateTransaction.__init__ w = Ok ((self', transaction'), w')
    /\ nth_error (heap w') 1 = Some b
    /\ RtSampleArray.annotations b = ["new"]
    /\ same_annotators [("A", Example.second_beat)]
         (DefaultWaveformSource._annotators self').
Proof.
  cbv zeta.
  eassert (Hrun :
             DefaultWaveformSource.update_all_realtime_samples (fun s => s)
               (fst Example.replaced) RtDataMdibUpdateTransaction.__init__
               (snd Example.replaced) = Ok ((_, _), _)).
  { vm_compute. reflexivity. }
  assert (Hkept :
            same_annotators
              (DefaultWaveformSource._annotators
                 (fold_left
                    DefaultWaveformSource.register_annotation_generator
                    [Example.first_beat; Example.second_beat]
                    DefaultWaveformSource.__init__))
              (DefaultWaveformSource._annotators (fst Example.replaced))).
  { repeat constructor. }
  destruct (register_annotation_generator_keeps_latest
              [Example.first_beat; Example.second_beat])
    as (_ & _ & _ & Hcycle).
  destruct (Hcycle (fun s => s) _ _ _ _ _ _ Hkept Hrun)
    as (self1 & w1 & _ & _ & _ & Hsame).
  eexists _, _, _, _. split; [exact Hrun |].
  split; [vm_compute; reflexivity |].
  split; [vm_compute; reflexivity |].
  exact Hsame.
Defined.

(** *** The journal of the host *)

Lemma periods_respected_ext (writes : list HostWrite) :
  forall d1 d2 : string -> option Q,
    (forall h, d1 h = d2 h) ->
    periods_respected d1 writes -> periods_respected d2 writes.
Proof.
  induction writes as [| e rest IH]; intros d1 d2 Hext H; [exact I |].
  cbn [periods_respected] in *. destruct H as [He Hrest]. split.
  - destruct e; try exact I. now rewrite <- Hext.
  - apply (IH (declare d1 e)); [| assumption].
    intros h. destruct e; cbn [declare]; auto.
    now rewrite Hext.
Qed.

Lemma declare_ext (writes : list HostWrite) :
  forall d1 d2 : string -> option Q,
    (forall h, d1 h = d2 h) ->
    forall h, fold_left declare writes d1 h = fold_left declare writes d2 h.
Proof.
  induction writes as [| e rest IH]; intros d1 d2 Hext h; cbn; [apply Hext |].
  apply IH. intros h'. destruct e; cbn [declare]; auto. now rewrite Hext.
Qed.

Lemma periods_respected_app (writes1 writes2 : list HostWrite) :
  forall d : string -> option Q,
    periods_respected d writes1 ->
    periods_respected (fold_left declare writes1 d) writes2 ->
    periods_respected d (writes1 ++ writes2).
Proof.
  induction writes1 as [| e rest IH]; intros d H1 H2; [exact H2 |].
  cbn [app periods_respected] in *. destruct H1 as [He Hrest].
  split; [assumption |]. apply IH; assumption.
Qed.

Lemma periods_respected_value_writes
    (generators : Dict.t _SampleArrayGenerator.t) (d : string -> option Q)
    (writes : list HostWrite) :
  (forall h g,
     Dict.get h generators = Some g ->
     exists q,
       d h = Some q
       /\ q == WaveformGenerator.sampleperiod
                 (_SampleArrayGenerator._generator g)) ->
  Forall (value_write_of generators) writes ->
  periods_respected d writes /\ fold_left declare writes d = d.
Proof.
  intros Hd H. induction H as [| e rest (h & g & Hg & _ & ->) Hrest IH].
  - split; [exact I | reflexivity].
  - cbn [periods_respected fold_left declare]. destruct IH as [IH1 IH2].
    split; [split; [exact (Hd h g Hg) | assumption] | assumption].
Qed.

Lemma find_descriptor_handle (h : string) (m : ProviderMdib.t)
    (d : DescriptorContainer.t) :
  ProviderMdib.find_descriptor h m = Some d -> DescriptorContainer.Handle d = h.
Proof.
  unfold ProviderMdib.find_descriptor. intros H. apply find_some in H.
  destruct H as [_ H]. apply String.eqb_eq in H. congruence.
Qed.

Lemma declared_by_put (h h' : string) (p : Q) (m : ProviderMdib.t) :
  declared_by (ProviderMdib.put_sample_period h p m) h'
  = match declared_by m h' with
    | Some q => Some (if String.eqb h' h then p else q)
    | None => None
    end.
Proof.
  unfold declared_by, ProviderMdib.find_descriptor,
    ProviderMdib.put_sample_period. cbn [ProviderMdib.descriptions].
  induction (ProviderMdib.descriptions m) as [| d rest IH]; [reflexivity |].
  cbn [map find].
  destruct (String.eqb h (DescriptorContainer.Handle d)) eqn:E;
    cbn [DescriptorContainer.Handle];
    destruct (String.eqb h' (DescriptorContainer.Handle d)) eqn:E';
    cbn [option_map DescriptorContainer.SamplePeriod]; try exact IH.
  - apply String.eqb_eq in E, E'. subst. now rewrite String.eqb_refl.
  - apply String.eqb_eq in E'. subst. now rewrite String.eqb_sym, E.
Qed.

Lemma declared_by_put_state (s : StateContainer.t) (m : ProviderMdib.t)
    (h : string) :
  declared_by (ProviderMdib.put_state s m) h = declared_by m h.
Proof. reflexivity. Qed.

Lemma step_ok_refl (self : DefaultWaveformSource.t) (w : World) :
  source_ok self w -> step_ok self w self w.
Proof.
  intros H. exists []. rewrite app_nil_r.
  repeat split; try reflexivity; try exact I; apply H.
Qed.

(** Registration keeps the generators under different handles, with their
    periods declared, and writes the descriptor when it has to. *)
Lemma register_waveform_generator_step (self : DefaultWaveformSource.t)
    (h : string) (wf_generator : WaveformGenerator.t) (w : World)
    (self' : DefaultWaveformSource.t) (w' : World) :
  source_ok self w ->
  DefaultWaveformSource.register_waveform_generator self h wf_generator w
  = Ok (self', w') ->
  step_ok self w self' w'.
Proof.
  intros [Hnd Hdecl] H.
  unfold DefaultWaveformSource.register_waveform_generator in H.
  apply bind_ok in H. destruct H as (d & w1 & Hone & H).
  unfold Transaction.get_one, bind, get_mdib in Hone.
  destruct (ProviderMdib.find_descriptor h (mdib w)) as [d0 |] eqn:Ed;
    [| discriminate].
  unfold ret in Hone. injection Hone as <- <-.
  apply bind_ok in H. destruct H as ([] & w2 & Hwrite & H).
  assert (Hself :
            exists g,
              _SampleArrayGenerator._generator g = wf_generator
              /\ self'
                 = DefaultWaveformSource.set_waveform_generators self
                     (Dict.set h g
                        (DefaultWaveformSource._waveform_generators self))
              /\ w' = w2).
  { destruct (Dict.get h (DefaultWaveformSource._waveform_generators self));
      unfold ret in H; injection H as <- <-; eexists;
      (split; [| split; reflexivity]); reflexivity. }
  clear H. destruct Hself as (g & Hgen & -> & ->).
  assert (Hd0 : declared_by (mdib w) h
                = Some (DescriptorContainer.SamplePeriod d0)).
  { unfold declared_by. now rewrite Ed. }
  destruct (Qeq_bool (DescriptorContainer.SamplePeriod d0)
              (WaveformGenerator.sampleperiod wf_generator)) eqn:Eq;
    cbn [negb] in Hwrite.
  - (* the descriptor declares the period already *)
    unfold ret in Hwrite. injection Hwrite as <-.
    apply Qeq_bool_iff in Eq.
    exists []. rewrite app_nil_r.
    split; [reflexivity |]. split; [exact I |]. split; [reflexivity |].
    split; [now apply Dict_set_keeps_nodup |].
    intros h' g' Hget.
    cbn [DefaultWaveformSource._waveform_generators
         DefaultWaveformSource.set_waveform_generators] in Hget.
    destruct (string_dec h h') as [<- | Hne].
    + rewrite Dict_get_set_same in Hget. injection Hget as <-.
      exists (DescriptorContainer.SamplePeriod d0). now rewrite Hgen.
    + rewrite Dict_get_set_other in Hget by assumption.
      exact (Hdecl h' g' Hget).
  - (* the descriptor is written *)
    unfold Transaction.write_sample_period, bind, get_mdib, set_mdib, log
      in Hwrite.
    rewrite Ed in Hwrite. cbn in Hwrite. injection Hwrite as <-.
    exists [DescriptorWrite h (WaveformGenerator.sampleperiod wf_generator)].
    cbn [journal mdib].
    split; [reflexivity |]. split; [cbn; auto |]. split.
    { intros h'. cbn [fold_left declare]. rewrite declared_by_put.
      destruct (String.eqb h' h) eqn:E.
      - apply String.eqb_eq in E. subst. now rewrite Hd0.
      - now destruct (declared_by (mdib w) h'). }
    split; [now apply Dict_set_keeps_nodup |].
    intros h' g' Hget.
    cbn [DefaultWaveformSource._waveform_generators
         DefaultWaveformSource.set_waveform_generators mdib] in *.
    rewrite declared_by_put.
    destruct (string_dec h h') as [<- | Hne].
    + rewrite Dict_get_set_same in Hget. injection Hget as <-.
      rewrite Hd0, String.eqb_refl, Hgen. eexists. split; reflexivity.
    + rewrite Dict_get_set_other in Hget by assumption.
      destruct (Hdecl h' g' Hget) as (q & Hq1 & Hq2).
      rewrite Hq1. apply String.eqb_neq in Hne.
      rewrite String.eqb_sym, Hne. now exists q.
Qed.

Lemma generator_set_activation_state_ok (g : _SampleArrayGenerator.t)
    (s : ComponentActivation) (w : World)
    (g' : _SampleArrayGenerator.t) (w' : World) :
  _SampleArrayGenerator.set_activation_state g s w = Ok (g', w') ->
  _SampleArrayGenerator._generator g' = _SampleArrayGenerator._generator g
  /\ _SampleArrayGenerator._activation_state g' = s
  /\ _SampleArrayGenerator.current_rt_sample_array g'
     = _SampleArrayGenerator.current_rt_sample_array g
  /\ _SampleArrayGenerator._descriptor_handle g'
     = _SampleArrayGenerator._descriptor_handle g
  /\ heap w' = heap w /\ mdib w' = mdib w /\ journal w' = journal w
  /\ clock w' = clock w.
Proof.
  unfold _SampleArrayGenerator.set_activation_state.
  destruct (ComponentActivation_eqb s ON);
    unfold bind, time_time, ret; cbn; intros H; injection H as <- <-;
    repeat split.
Qed.

Lemma set_activation_state_step (self : DefaultWaveformSource.t)
    (h : string) (s : ComponentActivation) (w : World)
    (self' : DefaultWaveformSource.t) (w' : World) :
  source_ok self w ->
  DefaultWaveformSource.set_activation_state self h s w = Ok (self', w') ->
  step_ok self w self' w'.
Proof.
  intros [Hnd Hdecl] H.
  unfold DefaultWaveformSource.set_activation_state in H.
  destruct (Dict.get h (DefaultWaveformSource._waveform_generators self))
    as [g |] eqn:Eg; [| discriminate].
  apply bind_ok in H. destruct H as (g' & w1 & Hset & H).
  apply generator_set_activation_state_ok in Hset.
  destruct Hset as (Hgen & _ & _ & _ & _ & Hm1 & Hj1 & _).
  apply bind_ok in H. destruct H as (st & w2 & Hst & H).
  apply get_state_ok in Hst. destruct Hst as [-> _].
  unfold bind, Transaction.commit_state, get_mdib, set_mdib, log, ret in H.
  cbn in H. injection H as <- <-. cbn [journal mdib].
  exists [ActivationWrite h s]. rewrite Hj1.
  split; [reflexivity |]. split; [cbn; auto |].
  split; [intros h'; cbn [fold_left declare];
          unfold declared_by, ProviderMdib.find_descriptor;
          cbn [ProviderMdib.descriptions]; now rewrite Hm1 |].
  split; [now apply Dict_set_keeps_nodup |].
  intros h' g'' Hget.
  cbn [DefaultWaveformSource._waveform_generators
       DefaultWaveformSource.set_waveform_generators mdib] in *.
  destruct (string_dec h h') as [<- | Hne].
  - rewrite Dict_get_set_same in Hget. injection Hget as <-.
    rewrite Hgen. destruct (Hdecl h g Eg) as (q & Hq1 & Hq2).
    exists q. split; [| assumption]. rewrite <- Hq1.
    unfold declared_by, ProviderMdib.find_descriptor.
    cbn [ProviderMdib.descriptions]. now rewrite Hm1.
  - rewrite Dict_get_set_other in Hget by assumption.
    destruct (Hdecl h' g'' Hget) as (q & Hq1 & Hq2).
    exists q. split; [| assumption]. rewrite <- Hq1.
    unfold declared_by, ProviderMdib.find_descriptor.
    cbn [ProviderMdib.descriptions]. now rewrite Hm1.
Qed.

Lemma commit_ok (transaction : RtDataMdibUpdateTransaction.t) (w w' : World)
    (u : unit) :
  RtDataMdibUpdateTransaction.commit transaction w = Ok (u, w') ->
  heap w' = heap w /\ journal w' = journal w /\ clock w' = clock w
  /\ ticks w' = ticks w
  /\ ProviderMdib.descriptions (mdib w') = ProviderMdib.descriptions (mdib w).
Proof.
  unfold RtDataMdibUpdateTransaction.commit, bind, get_mdib, set_mdib.
  destruct u. intros H. injection H as <-. cbn. repeat split.
  generalize (mdib w).
  induction (RtDataMdibUpdateTransaction.rt_sample_state_updates transaction)
    as [| s rest IH]; intros m; cbn; [reflexivity |].
  now rewrite IH.
Qed.

Lemma update_all_realtime_samples_step (create_decimal : Q -> Q)
    (self : DefaultWaveformSource.t)
    (transaction : RtDataMdibUpdateTransaction.t) (w : World)
    (self' : DefaultWaveformSource.t)
    (transaction' : RtDataMdibUpdateTransaction.t) (w' : World) :
  source_ok self w ->
  DefaultWaveformSource.update_all_realtime_samples create_decimal self
    transaction w = Ok ((self', transaction'), w') ->
  step_ok self w self' w' /\ mdib w' = mdib w.
Proof.
  intros [Hnd Hdecl] H.
  unfold DefaultWaveformSource.update_all_realtime_samples in H.
  apply bind_ok in H. destruct H as ([self1 transaction1] & w1 & Hloop & H).
  apply bind_ok in H. destruct H as (self2 & w2 & Hann & H).
  unfold ret in H. injection H as <- <- <-.
  destruct (update_generators_inv _ _ _ _ _ _ _ _ Hnd Hloop)
    as (_ & Hm & _ & Hk & (vs & Hj & Hvs) & Hg).
  unfold DefaultWaveformSource._add_all_annotations in Hann.
  apply bind_ok in Hann. destruct Hann as (annotators & w3 & Hann & Hr).
  unfold ret in Hr. injection Hr as <- <-.
  apply annotate_all_only_annotated in Hann.
  destruct Hann as [(_ & _ & Hm3 & Hj3 & _) _].
  destruct (periods_respected_value_writes _ (declared_by (mdib w)) vs
              Hdecl Hvs) as [P1 P2].
  split; [| congruence].
  exists vs. split; [congruence |]. split; [assumption |].
  split; [intros h; rewrite P2; congruence |].
  cbn [DefaultWaveformSource._waveform_generators
       DefaultWaveformSource.set_annotators].
  split.
  { unfold source_ok. cbn [DefaultWaveformSource._waveform_generators
                          DefaultWaveformSource.set_annotators].
    now rewrite Hk. }
  intros h g1 Hget. cbn in Hget.
  assert (Hin : In h (Dict.keys
                        (DefaultWaveformSource._waveform_generators self))).
  { rewrite <- Hk. apply Dict_get_in_keys. congruence. }
  apply Dict_get_in_keys in Hin.
  destruct (Dict.get h (DefaultWaveformSource._waveform_generators self))
    as [g |] eqn:Eg; [| congruence].
  destruct (Hg h g Eg) as (g1' & G1 & G2 & _).
  assert (g1' = g1) by congruence. subst g1'.
  rewrite Hm3, Hm, G2. exact (Hdecl h g Eg).
Qed.

Lemma declared_by_descriptions (m m' : ProviderMdib.t) :
  ProviderMdib.descriptions m' = ProviderMdib.descriptions m ->
  forall h, declared_by m' h = declared_by m h.
Proof.
  intros H h. unfold declared_by, ProviderMdib.find_descriptor. now rewrite H.
Qed.

Lemma step_ok_trans (self1 self2 self3 : DefaultWaveformSource.t)
    (w1 w2 w3 : World) :
  step_ok self1 w1 self2 w2 -> step_ok self2 w2 self3 w3 ->
  step_ok self1 w1 self3 w3.
Proof.
  intros (ws1 & J1 & P1 & D1 & _) (ws2 & J2 & P2 & D2 & Hok).
  exists (ws1 ++ ws2).
  split; [rewrite J2, J1; now rewrite app_assoc |].
  split.
  { apply periods_respected_app; [assumption |].
    eapply periods_respected_ext; [| exact P2].
    intros h. symmetry. apply D1. }
  split; [| assumption].
  intros h. rewrite fold_left_app, <- D2.
  apply declare_ext. exact D1.
Qed.

Lemma call_step (create_decimal : Q -> Q) (c : Call)
    (self : DefaultWaveformSource.t) (w : World)
    (self' : DefaultWaveformSource.t) (w' : World) :
  source_ok self w ->
  call create_decimal c self w = Ok (self', w') ->
  step_ok self w self' w'.
Proof.
  intros Hok H. destruct c as [h g | h s | a |]; cbn [call] in H.
  - eapply register_waveform_generator_step; eassumption.
  - eapply set_activation_state_step; eassumption.
  - unfold ret in H. injection H as <- <-.
    apply step_ok_refl. exact Hok.
  - apply bind_ok in H. destruct H as ([self1 transaction1] & w1 & Hupd & H).
    apply bind_ok in H. destruct H as (u & w2 & Hcommit & H).
    unfold ret in H. injection H as <- <-.
    destruct (update_all_realtime_samples_step _ _ _ _ _ _ _ Hok Hupd)
      as [(ws & J & P & D & Hnd & Hdecl) _].
    destruct (commit_ok _ _ _ _ Hcommit) as (_ & Hj & _ & _ & Hd).
    pose proof (declared_by_descriptions _ _ Hd) as Hsame.
    exists ws. split; [congruence |]. split; [assumption |].
    split; [intros h; rewrite Hsame; apply D |].
    split; [assumption |].
    intros h g Hget. rewrite Hsame. exact (Hdecl h g Hget).
Qed.

Lemma run_steps (create_decimal : Q -> Q) (calls : list Call) :
  forall (self : DefaultWaveformSource.t) (w : World)
         (self' : DefaultWaveformSource.t) (w' : World),
    source_ok self w ->
    run create_decimal calls self w = Ok (self', w') ->
    step_ok self w self' w'.
Proof.
  induction calls as [| c rest IH]; intros self w self' w' Hok H.
  - cbn in H. unfold ret in H. injection H as <- <-.
    now apply step_ok_refl.
  - cbn [run] in H. apply bind_ok in H. destruct H as (self1 & w1 & Hc & H).
    pose proof (call_step _ _ _ _ _ _ Hok Hc) as S1.
    assert (Hok1 : source_ok self1 w1) by (destruct S1 as (? & _ & _ & _ & ?);
                                           assumption).
    eapply step_ok_trans; [exact S1 |]. eapply IH; eassumption.
Qed.

Lemma source_ok_init (w : World) :
  source_ok DefaultWaveformSource.__init__ w.
Proof.
  split; [constructor | intros h g H; discriminate].
Qed.

(** X1.  Whatever calls are made on a new source, and as long as none of them
    raises: read in their order, the writes made into the host respect the
    declared periods.  Every write of values for a channel comes with the
    period that the descriptor of the channel declares at that moment, so a
    descriptor that has to change has been written before; and the
    generators of the source are kept under pairwise different handles, each
    with a descriptor that declares its period. *)
Theorem value_writes_follow_descriptor (create_decimal : Q -> Q)
    (calls : list Call) (w0 : World) (self : DefaultWaveformSource.t)
    (w : World) :
  run create_decimal calls DefaultWaveformSource.__init__ w0 = Ok (self, w) ->
  (exists writes,
     journal w = journal w0 ++ writes
     /\ periods_respected (declared_by (mdib w0)) writes)
  /\ NoDup (Dict.keys (DefaultWaveformSource._waveform_generators self))
  /\ periods_declared self w.
Proof.
  intros H.
  destruct (run_steps _ _ _ _ _ _ (source_ok_init w0) H)
    as (ws & J & P & _ & Hnd & Hdecl).
  split; [exists ws; split; assumption |]. split; assumption.
Qed.

Lemma value_writes_follow_descriptor_witness :
  journal (snd Example.switched_off)
  = [DescriptorWrite "A" 1; ValueWrite "A" 1; ValueWrite "B" 1;
     ValueWrite "A" 1; ValueWrite "B" 1; ActivationWrite "A" OFF]
  /\ declared_by Example.host "A" = Some 2
  /\ exists writes,
       journal (snd Example.switched_off)
       = journal (Example.world Example.clock_from_ten) ++ writes
       /\ periods_respected
            (declared_by (mdib (Example.world Example.clock_from_ten)))
            writes.
Proof.
  split; [vm_compute; reflexivity |]. split; [reflexivity |].
  exact (proj1 (value_writes_follow_descriptor (fun s => s)
                  Example.switch_off_A
                  (Example.world Example.clock_from_ten)
                  (fst Example.switched_off) (snd Example.switched_off)
                  switch_off_A_runs)).
Defined.

(** *** _SampleArrayGenerator: samples *)


Lemma next_samples_length (g : WaveformGenerator.t) (count : Z) :
  List.length (fst (WaveformGenerator.next_samples g count)) = Z.to_nat count
  /\ WaveformGenerator.position (snd (WaveformGenerator.next_samples g count))
     = (WaveformGenerator.position g + Z.to_nat count)%nat
  /\ WaveformGenerator.sampleperiod
       (snd (WaveformGenerator.next_samples g count))
     = WaveformGenerator.sampleperiod g
  /\ WaveformGenerator.signal (snd (WaveformGenerator.next_samples g count))
     = WaveformGenerator.signal g.
Proof.
  unfold WaveformGenerator.next_samples. cbn.
  rewrite length_map, length_seq. repeat split.
Qed.

(** What a call of [get_next_sample_array] that raises nothing does to the
    store and to the waveform generator, whatever the activation state. *)
Lemma get_next_sample_array_store (self : _SampleArrayGenerator.t)
    (w : World) (r : Ref) (self' : _SampleArrayGenerator.t) (w' : World) :
  _SampleArrayGenerator.get_next_sample_array self w = Ok ((r, self'), w') ->
  exists b,
    r = List.length (heap w)
    /\ heap w' = heap w ++ [b]
    /\ _SampleArrayGenerator.current_rt_sample_array self' = Some r
    /\ WaveformGenerator.position (_SampleArrayGenerator._generator self')
       = (WaveformGenerator.position (_SampleArrayGenerator._generator self)
          + List.length (RtSampleArray.samples b))%nat
    /\ RtSampleArray.sample_period b
       = WaveformGenerator.sampleperiod (_SampleArrayGenerator._generator self)
    /\ RtSampleArray.activation_state b
       = _SampleArrayGenerator._activation_state self
    /\ RtSampleArray.annotations b = []
    /\ RtSampleArray.apply_annotations b = []
    /\ _SampleArrayGenerator._activation_state self'
       = _SampleArrayGenerator._activation_state self
    /\ WaveformGenerator.sampleperiod (_SampleArrayGenerator._generator self')
       = WaveformGenerator.sampleperiod (_SampleArrayGenerator._generator self)
    /\ clock w' = clock w /\ mdib w' = mdib w /\ journal w' = journal w.
Proof.
  destruct (_SampleArrayGenerator.is_active self) eqn:A.
  - intros H.
    pose proof (get_next_sample_array_active self w r self' w' A H) as P.
    cbv zeta in P. destruct P as (_ & Hr & -> & ->).
    set (count := Py.int _).
    destruct (next_samples_length (_SampleArrayGenerator._generator self)
                count) as (L1 & L2 & L3 & _).
    destruct (WaveformGenerator.next_samples
                (_SampleArrayGenerator._generator self) count)
      as [samples generator].
    cbn [fst snd] in *.
    eexists. split; [exact Hr |]. cbn.
    split; [reflexivity |]. split; [reflexivity |].
    split; [cbn; rewrite L2, L1; reflexivity |].
    split; [reflexivity |].
    split; [symmetry; now apply ComponentActivation_eqb_eq |].
    do 2 (split; [reflexivity |]).
    split; [symmetry; now apply ComponentActivation_eqb_eq |].
    split; [exact L3 |]. repeat split.
  - unfold _SampleArrayGenerator.get_next_sample_array.
    unfold _SampleArrayGenerator.is_active in A. rewrite A. cbn [negb].
    unfold bind, new_object, ret. intros H. injection H as <- <- <-.
    eexists. split; [reflexivity |]. cbn.
    split; [reflexivity |]. split; [reflexivity |].
    split; [cbn; lia |]. repeat split.
Qed.

Lemma emitted_samples_new (bs : list RtSampleArray.t) :
  forall store : list RtSampleArray.t,
    emitted_samples (store ++ bs) (seq (List.length store) (List.length bs))
    = list_sum (map (fun b => List.length (RtSampleArray.samples b)) bs).
Proof.
  unfold emitted_samples.
  induction bs as [| b rest IH]; intros store; [reflexivity |].
  cbn [List.length seq map].
  rewrite nth_error_app2, Nat.sub_diag by lia. cbn [nth_error].
  specialize (IH (store ++ [b])).
  rewrite <- app_assoc, length_app in IH. cbn [List.length app] in IH.
  rewrite Nat.add_1_r in IH.
  unfold list_sum in *. cbn [fold_right]. now rewrite IH.
Qed.

Lemma poll_store (n : nat) :
  forall (self : _SampleArrayGenerator.t) (w : World) (rs : list Ref)
         (self' : _SampleArrayGenerator.t) (w' : World),
    poll n self w = Ok ((rs, self'), w') ->
    exists bs,
      heap w' = heap w ++ bs
      /\ List.length bs = n
      /\ rs = seq (List.length (heap w)) n
      /\ WaveformGenerator.position (_SampleArrayGenerator._generator self')
         = (WaveformGenerator.position (_SampleArrayGenerator._generator self)
            + list_sum
                (map (fun b => List.length (RtSampleArray.samples b)) bs))%nat
      /\ Forall (fun b =>
                   RtSampleArray.sample_period b
                   = WaveformGenerator.sampleperiod
                       (_SampleArrayGenerator._generator self)
                   /\ RtSampleArray.activation_state b
                      = _SampleArrayGenerator._activation_state self) bs.
Proof.
  induction n as [| n IH]; intros self w rs self' w' H.
  - cbn in H. unfold ret in H. injection H as <- <- <-.
    exists []. rewrite app_nil_r. cbn. repeat split; auto.
  - cbn [poll] in H. apply bind_ok in H.
    destruct H as ([r self1] & w1 & Hnext & H).
    apply bind_ok in H. destruct H as ([rs1 self2] & w2 & Hpoll & H).
    unfold ret in H. injection H as <- <- <-.
    destruct (get_next_sample_array_store _ _ _ _ _ Hnext)
      as (b & Hr & Hh & _ & Hp & Hsp & Hact & _ & _ & Hact' & Hsp' & _).
    destruct (IH _ _ _ _ _ Hpoll) as (bs & Hh2 & Hlen & Hrs & Hp2 & Hall).
    exists (b :: bs).
    split; [rewrite Hh2, Hh, <- app_assoc; reflexivity |].
    split; [cbn; now rewrite Hlen |].
    split.
    { rewrite Hrs, Hr, Hh, length_app. cbn [List.length seq].
      now rewrite Nat.add_1_r. }
    split; [rewrite Hp2, Hp; unfold list_sum; cbn [map fold_right]; lia |].
    constructor; [split; assumption |].
    eapply Forall_impl; [| exact Hall]. cbv beta. intros b' [B1 B2].
    split; congruence.
Qed.

(** X3.  Every sample that the waveform generator is asked for ends up in a
    sample array: after any number of calls of [get_next_sample_array] that
    raise nothing, the sample arrays they made are new objects of the store,
    one per call and in the order of the calls, and together they hold as
    many samples as the position of the waveform generator has advanced. *)
Theorem poll_emits_what_it_draws (n : nat) (self : _SampleArrayGenerator.t)
    (w : World) (rs : list Ref) (self' : _SampleArrayGenerator.t)
    (w' : World) :
  poll n self w = Ok ((rs, self'), w') ->
  rs = seq (List.length (heap w)) n
  /\ List.length (heap w') = (List.length (heap w) + n)%nat
  /\ WaveformGenerator.position (_SampleArrayGenerator._generator self')
     = (WaveformGenerator.position (_SampleArrayGenerator._generator self)
        + emitted_samples (heap w') rs)%nat.
Proof.
  intros H. destruct (poll_store n _ _ _ _ _ H)
    as (bs & Hh & Hlen & Hrs & Hp & _).
  split; [assumption |].
  split; [rewrite Hh, length_app; lia |].
  rewrite Hp, Hh, Hrs, <- Hlen. now rewrite emitted_samples_new.
Qed.

(** *** RtSampleArray: the index that a time stamp resolves to *)



(** *** Annotator and RtSampleArray together *)





(** *** DefaultWaveformSource: what the phases of the update cycle leave *)

(** X8.  The annotation phase adds annotations and nothing else: it leaves the
    clock, the host and the journal as they are, makes and removes no sample
    array, changes the time stamp, the period, the samples and the
    activation state of no sample array, and only appends to annotation
    lists; it leaves the generators as they are and the annotators under
    their handles, each with its annotation and its handles. *)
Theorem add_all_annotations_only_annotates (self : DefaultWaveformSource.t)
    (w : World) (self' : DefaultWaveformSource.t) (w' : World) :
  DefaultWaveformSource._add_all_annotations self w = Ok (self', w') ->
  only_annotated w w'
  /\ DefaultWaveformSource._waveform_generators self'
     = DefaultWaveformSource._waveform_generators self
  /\ Forall2 (fun x y => fst y = fst x /\ same_annotator (snd x) (snd y))
             (DefaultWaveformSource._annotators self)
             (DefaultWaveformSource._annotators self').
Proof.
  unfold DefaultWaveformSource._add_all_annotations. intros H.
  apply bind_ok in H. destruct H as (annotators & w1 & Hann & H).
  unfold ret in H. injection H as <- <-.
  destruct (annotate_all_only_annotated _ _ _ _ _ Hann) as [Hw Hitems].
  split; [assumption |]. split; [reflexivity | exact Hitems].
Qed.

Lemma add_all_annotations_only_annotates_witness :
  exists self' w',
    DefaultWaveformSource._add_all_annotations (fst Example.annotated)
      (snd Example.annotated) = Ok (self', w')
    /\ only_annotated (snd Example.annotated) w'
    /\ option_map RtSampleArray.annotations (nth_error (heap w') 2)
       = Some ["beat"; "beat"].
Proof.
  eassert (H : DefaultWaveformSource._add_all_annotations
                 (fst Example.annotated) (snd Example.annotated)
               = Ok (_, _)).
  { vm_compute. reflexivity. }
  eexists _, _. split; [exact H |].
  split; [exact (proj1 (add_all_annotations_only_annotates _ _ _ _ H)) |].
  vm_compute. reflexivity.
Defined.

Lemma annotate_all_without_array (arrays : Dict.t (option Ref)) (h : string)
    (a : Annotator.t) (items : list (string * Annotator.t)) :
  In (h, a) items ->
  Dict.get h arrays = Some None ->
  forall w, exists e,
    DefaultWaveformSource.annotate_all arrays items w = Raise e.
Proof.
  intros Hin Hnone. induction items as [| [h0 a0] rest IH]; [destruct Hin |].
  intros w. cbn [DefaultWaveformSource.annotate_all]. unfold bind at 1.
  destruct Hin as [Heq | Hin].
  - injection Heq as -> ->. rewrite Hnone. now exists AttributeError.
  - match goal with
    | |- exists e, match ?c w with _ => _ end = _ =>
        destruct (c w) as [[a1 w1] | e]; [| now exists e]
    end.
    destruct (IH Hin w1) as [e He]. unfold bind. rewrite He. now exists e.
Qed.

(** X9.  The annotation phase raises when the trigger handle of an annotator is
    the handle of a generator that has not made a sample array yet (it was
    switched off before its first update cycle): the mapping holds [None]
    for it.  With this annotator first among the annotators the exception
    is [AttributeError]. *)
Theorem add_all_annotations_without_array (self : DefaultWaveformSource.t)
    (w : World) (h : string) (a : Annotator.t)
    (g : _SampleArrayGenerator.t) :
  In (h, a) (DefaultWaveformSource._annotators self) ->
  Dict.get h (DefaultWaveformSource._waveform_generators self) = Some g ->
  _SampleArrayGenerator.current_rt_sample_array g = None ->
  (exists e, DefaultWaveformSource._add_all_annotations self w = Raise e)
  /\ (hd_error (DefaultWaveformSource._annotators self) = Some (h, a) ->
      DefaultWaveformSource._add_all_annotations self w
      = Raise AttributeError).
Proof.
  intros Hin Hg Hnone.
  assert (Harr : Dict.get h (DefaultWaveformSource.rt_sample_arrays self)
                 = Some None).
  { rewrite rt_sample_arrays_get, Hg. cbn. now rewrite Hnone. }
  unfold DefaultWaveformSource._add_all_annotations. split.
  - destruct (annotate_all_without_array _ _ _ _ Hin Harr w) as [e He].
    exists e. unfold bind. now rewrite He.
  - intros Hhd.
    destruct (DefaultWaveformSource._annotators self) as [| [h0 a0] rest];
      [discriminate |].
    injection Hhd as -> ->.
    cbn [DefaultWaveformSource.annotate_all]. unfold bind.
    now rewrite Harr.
Qed.

Lemma add_all_annotations_without_array_witness :
  run (fun s => s) Example.switch_off_before_update
      DefaultWaveformSource.__init__ (Example.world Example.clock_from_ten)
  = Ok (fst Example.never_updated, snd Example.never_updated)
  /\ DefaultWaveformSource._add_all_annotations (fst Example.never_updated)
       (snd Example.never_updated) = Raise AttributeError
  /\ call (fun s => s) UpdateAllRealtimeSamples (fst Example.never_updated)
       (snd Example.never_updated) = Raise AttributeError.
Proof.
  split; [vm_compute; reflexivity |].
  split; [| vm_compute; reflexivity].
  eassert (Hg : Dict.get "A"
                  (DefaultWaveformSource._waveform_generators
                     (fst Example.never_updated)) = Some _).
  { vm_compute. reflexivity. }
  refine (proj2 (add_all_annotations_without_array
                   (fst Example.never_updated) (snd Example.never_updated)
                   "A" Example.beat _ _ Hg _) _).
  - vm_compute. left. reflexivity.
  - reflexivity.
  - vm_compute. reflexivity.
Defined.

(** *** DefaultWaveformSource: registration of generators *)

(** X12.  Registration raises when the host has no descriptor for the handle
    (the lookup of the host raises, and nothing is registered).  Otherwise
    it raises nothing, and the handle has a generator with
    the waveform generator given: a new one, ON and without a last time
    stamp or a sample array, when the handle had none, and else the old one
    with its last time stamp, its activation state and its sample array.
    The generators of the other handles, the order of the handles, the store
    and the state records of the host stay as they are. *)
Theorem register_waveform_generator_spec (self : DefaultWaveformSource.t)
    (h : string) (wf_generator : WaveformGenerator.t) (w : World) :
  match ProviderMdib.find_descriptor h (mdib w) with
  | None =>
      exists e,
        DefaultWaveformSource.register_waveform_generator self h
          wf_generator w = Raise e
  | Some _ =>
      exists self' w' g',
        DefaultWaveformSource.register_waveform_generator self h
          wf_generator w = Ok (self', w')
        /\ Dict.get h (DefaultWaveformSource._waveform_generators self')
           = Some g'
        /\ _SampleArrayGenerator._generator g' = wf_generator
        /\ (_SampleArrayGenerator._last_timestamp g',
            _SampleArrayGenerator._activation_state g',
            _SampleArrayGenerator.current_rt_sample_array g')
           = match Dict.get h
                     (DefaultWaveformSource._waveform_generators self) with
             | Some g =>
                 (_SampleArrayGenerator._last_timestamp g,
                  _SampleArrayGenerator._activation_state g,
                  _SampleArrayGenerator.current_rt_sample_array g)
             | None => (None, ON, None)
             end
        /\ (forall h',
              h' <> h ->
              Dict.get h' (DefaultWaveformSource._waveform_generators self')
              = Dict.get h' (DefaultWaveformSource._waveform_generators self))
        /\ Dict.keys (DefaultWaveformSource._waveform_generators self')
           = (if Dict.mem h (DefaultWaveformSource._waveform_generators self)
              then Dict.keys (DefaultWaveformSource._waveform_generators self)
              else Dict.keys (DefaultWaveformSource._waveform_generators self)
                     ++ [h])
        /\ DefaultWaveformSource._annotators self'
           = DefaultWaveformSource._annotators self
        /\ heap w' = heap w
        /\ ticks w' = ticks w
        /\ ProviderMdib.states (mdib w') = ProviderMdib.states (mdib w)
  end.
Proof.
  destruct (ProviderMdib.find_descriptor h (mdib w)) as [d |] eqn:Ed.
  2: { exists KeyError.
       unfold DefaultWaveformSource.register_waveform_generator.
       unfold bind at 1, Transaction.get_one at 1, bind at 1, get_mdib at 1.
       now rewrite Ed. }
  unfold DefaultWaveformSource.register_waveform_generator.
  unfold bind at 1, Transaction.get_one at 1, bind at 1, get_mdib at 1.
  rewrite Ed. unfold ret at 1. unfold bind at 1.
  assert (Hwrite :
            exists w',
              (if negb (Qeq_bool (DescriptorContainer.SamplePeriod d)
                          (WaveformGenerator.sampleperiod wf_generator))
               then Transaction.write_sample_period h
                      (WaveformGenerator.sampleperiod wf_generator)
               else ret tt) w = Ok (tt, w')
              /\ heap w' = heap w /\ ticks w' = ticks w
              /\ ProviderMdib.states (mdib w') = ProviderMdib.states (mdib w)).
  { destruct (negb _).
    - unfold Transaction.write_sample_period, bind, get_mdib, set_mdib, log.
      rewrite Ed. eexists. split; [reflexivity |]. repeat split.
    - eexists. split; [reflexivity |]. repeat split. }
  destruct Hwrite as (w' & -> & Hh & Ht & Hs).
  destruct (Dict.get h (DefaultWaveformSource._waveform_generators self))
    as [g |] eqn:Eg; unfold ret; eexists _, w', _;
    (split; [reflexivity |]);
    cbn [DefaultWaveformSource._waveform_generators
         DefaultWaveformSource._annotators
         DefaultWaveformSource.set_waveform_generators];
    rewrite Dict_get_set_same;
    (split; [reflexivity |]); (split; [reflexivity |]);
    (split; [reflexivity |]);
    (split; [intros h' Hne; apply Dict_get_set_other; congruence |]);
    (split; [apply Dict_keys_set |]);
    repeat split; assumption.
Qed.

(** *** Annotator: from one sample array to the next *)

Lemma rising_edges_app (s1 s2 : list Q) :
  forall last_value : Q,
    rising_edges last_value (s1 ++ s2)
    = rising_edges last_value s1
        ++ map (Nat.add (List.length s1))
               (rising_edges (last s1 last_value) s2).
Proof.
  induction s1 as [| x rest IH]; intros last_value.
  - cbn [app last List.length]. rewrite map_id. reflexivity.
  - cbn [app]. rewrite !rising_edges_cons, IH, last_cons.
    rewrite map_app, map_map, <- app_assoc. reflexivity.
Qed.

(** X13.  The last value carries an annotator from one sample array to the next:
    shown two sample arrays (with determination times) one after the other,
    it finds, position for position, the rising edges of the samples of both
    in a row, including an edge between the last sample of the first array
    and the first sample of the second; afterwards its last value is the
    last sample shown. *)
Theorem annotator_across_arrays (a : Annotator.t) (b1 b2 : RtSampleArray.t)
    (d1 d2 : Q) :
  let s1 := RtSampleArray.samples b1 in
  let s2 := RtSampleArray.samples b2 in
  RtSampleArray.determination_time b1 = Some d1 ->
  RtSampleArray.determination_time b2 = Some d2 ->
  exists ts1 a1 ts2 a2 e1 e2,
    Annotator.get_annotation_timestamps a b1 = Ok (ts1, a1)
    /\ Annotator.get_annotation_timestamps a1 b2 = Ok (ts2, a2)
    /\ ts1 = map (fun i => d1 + inject_Z (Z.of_nat i)
                                * RtSampleArray.sample_period b1) e1
    /\ ts2 = map (fun i => d2 + inject_Z (Z.of_nat i)
                                * RtSampleArray.sample_period b2) e2
    /\ e1 ++ map (Nat.add (List.length s1)) e2
       = rising_edges (Annotator._last_value a) (s1 ++ s2)
    /\ Annotator._last_value a2 = last (s1 ++ s2) (Annotator._last_value a).
Proof.
  intros s1 s2 H1 H2.
  unfold Annotator.get_annotation_timestamps.
  rewrite H1, timestamps_loop_some. cbn [app].
  eexists _, _, _, _, _, _. split; [reflexivity |].
  cbn [Annotator._last_value Annotator.set_last_value].
  rewrite H2, timestamps_loop_some. cbn [app].
  split; [reflexivity |]. split; [reflexivity |]. split; [reflexivity |].
  fold s1 s2. split.
  - symmetry. apply rising_edges_app.
  - cbn [Annotator._last_value Annotator.set_last_value].
    clear. revert s2. intros s2.
    generalize (Annotator._last_value a). intros lv.
    induction s1 as [| x rest IH] in lv |- *; [reflexivity |].
    cbn [app]. rewrite !last_cons. apply IH.
Qed.

Lemma annotator_across_arrays_witness :
  exists ts1 a1 ts2 a2,
    Annotator.get_annotation_timestamps Example.beat
      (RtSampleArray.__init__ (Some 10) 1 [1; - (1)] ON) = Ok (ts1, a1)
    /\ Annotator.get_annotation_timestamps a1
         (RtSampleArray.__init__ (Some 12) 1 [2; 0] ON) = Ok (ts2, a2)
    /\ List.length ts1 = 1%nat /\ List.length ts2 = 1%nat
    /\ Annotator._last_value a2 = 0.
Proof.
  destruct (annotator_across_arrays Example.beat
              (RtSampleArray.__init__ (Some 10) 1 [1; - (1)] ON)
              (RtSampleArray.__init__ (Some 12) 1 [2; 0] ON)
              10 12 eq_refl eq_refl)
    as (ts1 & a1 & ts2 & a2 & e1 & e2 & G1 & G2 & T1 & T2 & E & L).
  exists ts1, a1, ts2, a2.
  split; [exact G1 |]. split; [exact G2 |].
  vm_compute in G1. injection G1 as <- <-.
  vm_compute in G2. injection G2 as <- <-.
  repeat split.
Defined.

(** *** DefaultWaveformSource: channels that are not ON *)

(** X14.  An update cycle that raises nothing passes over every generator that is
    not ON: its entry in the source is left as it is, and the writes of the
    cycle are writes of values for generators that are ON, each with the
    period of its waveform generator.  The descriptors and the state
    records of the host are not changed by the cycle itself. *)
Theorem update_skips_inactive (create_decimal : Q -> Q)
    (self : DefaultWaveformSource.t)
    (transaction : RtDataMdibUpdateTransaction.t) (w : World)
    (self' : DefaultWaveformSource.t)
    (transaction' : RtDataMdibUpdateTransaction.t) (w' : World) :
  NoDup (Dict.keys (DefaultWaveformSource._waveform_generators self)) ->
  DefaultWaveformSource.update_all_realtime_samples create_decimal self
    transaction w = Ok ((self', transaction'), w') ->
  (forall h g,
     Dict.get h (DefaultWaveformSource._waveform_generators self) = Some g ->
     _SampleArrayGenerator.is_active g = false ->
     Dict.get h (DefaultWaveformSource._waveform_generators self') = Some g)
  /\ (exists writes,
        journal w' = journal w ++ writes
        /\ Forall (value_write_of
                     (DefaultWaveformSource._waveform_generators self))
                  writes)
  /\ mdib w' = mdib w.
Proof.
  intros Hnd H.
  unfold DefaultWaveformSource.update_all_realtime_samples in H.
  apply bind_ok in H. destruct H as ([self1 transaction1] & w1 & Hloop & H).
  apply bind_ok in H. destruct H as (self2 & w2 & Hann & H).
  unfold ret in H. injection H as <- <- <-.
  destruct (update_generators_inv _ _ _ _ _ _ _ _ Hnd Hloop)
    as (_ & Hm & _ & _ & (vs & Hj & Hvs) & Hg).
  unfold DefaultWaveformSource._add_all_annotations in Hann.
  apply bind_ok in Hann. destruct Hann as (annotators & w3 & Hann & Hr).
  unfold ret in Hr. injection Hr as <- <-.
  apply annotate_all_only_annotated in Hann.
  destruct Hann as [(_ & _ & Hm3 & Hj3 & _) _].
  split; [| split; [exists vs; split; [congruence | assumption]
                   | congruence]].
  intros h g Hget Hoff.
  destruct (Hg h g Hget) as (g1 & G1 & _ & _ & _ & G5).
  cbn [DefaultWaveformSource._waveform_generators
       DefaultWaveformSource.set_annotators].
  now rewrite <- (G5 (or_intror Hoff)).
Qed.

Lemma update_skips_inactive_witness :
  exists self' transaction' w' g,
    DefaultWaveformSource.update_all_realtime_samples (fun s => s)
      (fst Example.switched_off) RtDataMdibUpdateTransaction.__init__
      (snd Example.switched_off) = Ok ((self', transaction'), w')
    /\ Dict.get "A"
         (DefaultWaveformSource._waveform_generators
            (fst Example.switched_off)) = Some g
    /\ _SampleArrayGenerator.is_active g = false
    /\ Dict.get "A" (DefaultWaveformSource._waveform_generators self')
       = Some g.
Proof.
  assert (Hnd : NoDup (Dict.keys
                         (DefaultWaveformSource._waveform_generators
                            (fst Example.switched_off)))).
  { vm_compute. repeat constructor; simpl; intuition discriminate. }
  eassert (Hupd : DefaultWaveformSource.update_all_realtime_samples
                    (fun s => s) (fst Example.switched_off)
                    RtDataMdibUpdateTransaction.__init__
                    (snd Example.switched_off) = Ok ((_, _), _)).
  { vm_compute. reflexivity. }
  eassert (HgA : Dict.get "A"
                   (DefaultWaveformSource._waveform_generators
                      (fst Example.switched_off)) = Some _).
  { vm_compute. reflexivity. }
  eexists _, _, _, _. split; [exact Hupd |]. split; [exact HgA |].
  split; [reflexivity |].
  exact (proj1 (update_skips_inactive _ _ _ _ _ _ _ Hnd Hupd) "A" _ HgA
               eq_refl).
Defined.

Lemma poll_emits_what_it_draws_witness :
  exists rs self' w',
    poll 3 (_SampleArrayGenerator.__init__ "A" (Example.generator 1))
         (Example.world Example.clock_from_ten) = Ok ((rs, self'), w')
    /\ rs = [0%nat; 1%nat; 2%nat]
    /\ WaveformGenerator.position (_SampleArrayGenerator._generator self')
       = 5%nat.
Proof.
  eassert (H : poll 3 (_SampleArrayGenerator.__init__ "A"
                         (Example.generator 1))
                    (Example.world Example.clock_from_ten)
               = Ok ((_, _), _)).
  { vm_compute. reflexivity. }
  eexists _, _, _. split; [exact H |].
  destruct (poll_emits_what_it_draws _ _ _ _ _ _ H) as (Hrs & _ & Hp).
  split; [exact Hrs |]. exact Hp.
Defined.

Lemma add_annotations_at_keeps_annotation_indices_witness :
  let first :=
    RtSampleArray.add_annotations_at
      (RtSampleArray.__init__ (Some 0) 1 [1; 2; 3] ON) "a" [1; 2] in
  let second := RtSampleArray.add_annotations_at first "b" [0; 5 # 2; 7] in
  annotation_indices_valid first
  /\ annotation_indices_valid second
  /\ map (named_annotation second) (RtSampleArray.apply_annotations second)
     = [Some "a"; Some "a"; Some "b"; Some "b"].
Proof.
  cbv zeta.
  assert (H : annotation_indices_valid
                (RtSampleArray.add_annotations_at
                   (RtSampleArray.__init__ (Some 0) 1 [1; 2; 3] ON) "a"
                   [1; 2])).
  { apply (add_annotations_at_keeps_annotation_indices
             (RtSampleArray.__init__ (Some 0) 1 [1; 2; 3] ON) "a" [1; 2]).
    constructor. }
  split; [exact H |].
  split; [| reflexivity].
  exact (proj1 (add_annotations_at_keeps_annotation_indices _ "b"
                  [0; 5 # 2; 7] H)).
Defined.

(** *** DefaultWaveformSource: what an update cycle publishes *)

Lemma update_rt_samples_state (create_decimal : Q -> Q)
    (self : DefaultWaveformSource.t) (state : StateContainer.t) (w : World)
    (g : _SampleArrayGenerator.t)
    (self' : DefaultWaveformSource.t) (state' : StateContainer.t)
    (w' : World) :
  Dict.get (StateContainer.DescriptorHandle state)
           (DefaultWaveformSource._waveform_generators self) = Some g ->
  _SampleArrayGenerator.is_active g = true ->
  DefaultWaveformSource._update_rt_samples create_decimal self state w
  = Ok ((self', state'), w') ->
  published create_decimal
    (DefaultWaveformSource._waveform_generators self') (heap w') state'.
Proof.
  intros Hg Hon H.
  unfold DefaultWaveformSource._update_rt_samples in H.
  rewrite Hg in H.
  apply bind_ok in H. destruct H as ([r g1] & w1 & Hnext & H).
  pose proof (get_next_sample_array_active g w r g1 w1 Hon Hnext) as Hact.
  cbv zeta in Hact. destruct Hact as (_ & Hr & Hw1 & Hg1).
  apply bind_ok in H. destruct H as (b & w2 & Hderef & H).
  unfold deref in Hderef.
  destruct (nth_error (heap w1) r) as [b0 |] eqn:Hb; [| discriminate].
  injection Hderef as -> <-.
  unfold bind, log, ret in H. cbn in H. injection H as <- <- <-.
  unfold published.
  cbn [DefaultWaveformSource._waveform_generators
       DefaultWaveformSource.set_waveform_generators heap].
  assert (Hon' : RtSampleArray.activation_state b = ON).
  { rewrite Hw1 in Hb. cbn [heap] in Hb. rewrite Hr, nth_error_new in Hb.
    injection Hb as <-. reflexivity. }
  exists g1, r, b.
  destruct (StateContainer.MetricValue state);
    cbn [StateContainer.DescriptorHandle StateContainer.set_ActivationState
         StateContainer.set_MetricValue StateContainer.mk_metric_value
         StateContainer.ActivationState StateContainer.MetricValue];
    rewrite Dict_get_set_same;
    (split; [reflexivity |]);
    (split; [rewrite Hg1; reflexivity |]);
    (split; [exact Hb |]);
    (split; [exact Hon' | reflexivity]).
Qed.

Lemma get_state_found (h : string) (w : World) (state : StateContainer.t)
    (w' : World) :
  Transaction.get_state h w = Ok (state, w') ->
  ProviderMdib.find_state h (ProviderMdib.states (mdib w)) = Some state.
Proof.
  unfold Transaction.get_state, bind, get_mdib.
  destruct (ProviderMdib.find_state h (ProviderMdib.states (mdib w)))
    as [s |]; [| discriminate].
  unfold ret. intros H. now injection H as <- _.
Qed.

Lemma published_later (create_decimal : Q -> Q)
    (generators generators' : Dict.t _SampleArrayGenerator.t)
    (store more : list RtSampleArray.t) (st : StateContainer.t) :
  published create_decimal generators store st ->
  Dict.get (StateContainer.DescriptorHandle st) generators'
  = Dict.get (StateContainer.DescriptorHandle st) generators ->
  published create_decimal generators' (store ++ more) st.
Proof.
  intros (g & r & b & Hg & Hc & Hb & Ha & Hv) Hsame.
  exists g, r, b. rewrite Hsame. repeat split; try assumption.
  rewrite nth_error_app1; [assumption |].
  apply nth_error_Some. congruence.
Qed.

Lemma update_generators_states (create_decimal : Q -> Q)
    (handles : list string) :
  forall (self : DefaultWaveformSource.t)
         (transaction : RtDataMdibUpdateTransaction.t) (w : World)
         (self1 : DefaultWaveformSource.t)
         (transaction1 : RtDataMdibUpdateTransaction.t) (w1 : World),
    NoDup handles ->
    DefaultWaveformSource.update_generators create_decimal handles self
      transaction w = Ok ((self1, transaction1), w1) ->
    exists sts,
      RtDataMdibUpdateTransaction.rt_sample_state_updates transaction1
      = RtDataMdibUpdateTransaction.rt_sample_state_updates transaction ++ sts
      /\ NoDup (map StateContainer.DescriptorHandle sts)
      /\ (forall st,
            In st sts ->
            In (StateContainer.DescriptorHandle st) handles
            /\ (exists g,
                  Dict.get (StateContainer.DescriptorHandle st)
                    (DefaultWaveformSource._waveform_generators self) = Some g
                  /\ _SampleArrayGenerator.is_active g = true)
            /\ ProviderMdib.find_state (StateContainer.DescriptorHandle st)
                 (ProviderMdib.states (mdib w)) <> None
            /\ published create_decimal
                 (DefaultWaveformSource._waveform_generators self1)
                 (heap w1) st)
      /\ (forall h g,
            Dict.get h (DefaultWaveformSource._waveform_generators self)
            = Some g ->
            In h handles ->
            _SampleArrayGenerator.is_active g = true ->
            exists st, In st sts /\ StateContainer.DescriptorHandle st = h).
Proof.
  induction handles as [| h0 rest IH];
    intros self transaction w self1 transaction1 w1 Hnd H.
  - cbn in H. unfold ret in H. injection H as <- <- <-.
    exists []. rewrite app_nil_r. split; [reflexivity |].
    split; [constructor |]. split; [intros st [] |].
    intros h g _ [].
  - inversion Hnd as [| ? ? Hnot Hnd']; subst.
    cbn [DefaultWaveformSource.update_generators] in H.
    destruct (Dict.get h0 (DefaultWaveformSource._waveform_generators self))
      as [g0 |] eqn:E0.
    2: { destruct (IH _ _ _ _ _ _ Hnd' H) as (sts & Ht & Hn & Hs & Hc).
         exists sts. split; [assumption |]. split; [assumption |].
         split.
         - intros st Hin. destruct (Hs st Hin) as (S1 & S2 & S3 & S4).
           repeat split; try assumption. now right.
         - intros h g Hget [Heq | Hin] Hact; [congruence | eauto]. }
    destruct (_SampleArrayGenerator.is_active g0) eqn:A0.
    2: { destruct (IH _ _ _ _ _ _ Hnd' H) as (sts & Ht & Hn & Hs & Hc).
         exists sts. split; [assumption |]. split; [assumption |].
         split.
         - intros st Hin. destruct (Hs st Hin) as (S1 & S2 & S3 & S4).
           repeat split; try assumption. now right.
         - intros h g Hget [Heq | Hin] Hact; [congruence | eauto]. }
    apply bind_ok in H. destruct H as (state & wa & Hstate & H).
    pose proof (get_state_found _ _ _ _ Hstate) as Hfound.
    apply get_state_ok in Hstate. destruct Hstate as [-> Hh0].
    apply bind_ok in H. destruct H as ([self' state'] & wb & Hupd & H).
    rewrite <- Hh0 in E0.
    pose proof (update_rt_samples_state _ _ _ _ _ _ _ _ E0 A0 Hupd) as Hpub.
    destruct (update_rt_samples_active _ _ _ _ _ _ _ _ E0 A0 Hupd)
      as (g0' & obs & samples & U).
    cbv zeta in U. destruct U as (Us & _ & _ & _ & Uh & Uw).
    rewrite Hh0 in Us, Uw, E0, Uh.
    destruct (IH _ _ _ _ _ _ Hnd' H) as (sts & Ht & Hn & Hs & Hc).
    destruct (update_generators_inv _ _ _ _ _ _ _ _ Hnd' H)
      as ([bs Hheap] & _ & _ & _ & _ & Hg).
    assert (Hmb : mdib wb = mdib w) by (rewrite Uw; reflexivity).
    assert (Hget' : forall h,
               h <> h0 ->
               Dict.get h (DefaultWaveformSource._waveform_generators self')
               = Dict.get h (DefaultWaveformSource._waveform_generators self)).
    { intros h Hne. rewrite Us.
      cbn [DefaultWaveformSource._waveform_generators
           DefaultWaveformSource.set_waveform_generators].
      apply Dict_get_set_other. congruence. }
    exists (state' :: sts).
    split.
    { rewrite Ht. cbn [RtDataMdibUpdateTransaction.keep
                       RtDataMdibUpdateTransaction.rt_sample_state_updates].
      now rewrite <- app_assoc. }
    split.
    { cbn [map]. constructor; [| assumption].
      rewrite Uh. intros Hin. apply in_map_iff in Hin.
      destruct Hin as (st & Heq & Hin).
      destruct (Hs st Hin) as (S1 & _). congruence. }
    split.
    { intros st [<- | Hin].
      - rewrite Uh. split; [now left |].
        split; [exists g0; split; assumption |].
        split; [congruence |].
        rewrite Hheap. eapply published_later; [exact Hpub |].
        rewrite Uh.
        destruct Hpub as (g & r & b & Pg & _). rewrite Uh in Pg.
        destruct (Hg h0 g Pg) as (g1 & G1 & _ & _ & _ & G5).
        rewrite G1, Pg. f_equal. apply G5. now left.
      - destruct (Hs st Hin) as (S1 & (g & S2 & S2') & S3 & S4).
        assert (Hne : StateContainer.DescriptorHandle st <> h0)
          by (intros <-; contradiction).
        split; [now right |].
        split; [exists g; rewrite <- (Hget' _ Hne); split; assumption |].
        split; [now rewrite <- Hmb | assumption]. }
    intros h g Hget [<- | Hin] Hact.
    + exists state'. split; [now left | assumption].
    + assert (Hne : h <> h0) by (intros ->; contradiction).
      rewrite <- (Hget' _ Hne) in Hget.
      destruct (Hc h g Hget Hin Hact) as (st & Hst & Hh).
      exists st. split; [now right | assumption].
Qed.

Lemma find_state_put_other (h : string) (st : StateContainer.t)
    (m : ProviderMdib.t) :
  h <> StateContainer.DescriptorHandle st ->
  ProviderMdib.find_state h (ProviderMdib.states (ProviderMdib.put_state st m))
  = ProviderMdib.find_state h (ProviderMdib.states m).
Proof.
  intros Hne. unfold ProviderMdib.find_state, ProviderMdib.put_state.
  cbn [ProviderMdib.states].
  induction (ProviderMdib.states m) as [| s rest IH]; [reflexivity |].
  cbn [map find].
  destruct (String.eqb (StateContainer.DescriptorHandle st)
                       (StateContainer.DescriptorHandle s)) eqn:E.
  - apply String.eqb_eq in E.
    assert (E1 : String.eqb h (StateContainer.DescriptorHandle st) = false)
      by now apply String.eqb_neq.
    assert (E2 : String.eqb h (StateContainer.DescriptorHandle s) = false)
      by (apply String.eqb_neq; congruence).
    now rewrite E1, E2.
  - destruct (String.eqb h (StateContainer.DescriptorHandle s));
      [reflexivity | exact IH].
Qed.

Lemma commit_states (sts : list StateContainer.t) :
  forall m : ProviderMdib.t,
    NoDup (map StateContainer.DescriptorHandle sts) ->
    (forall st,
       In st sts ->
       ProviderMdib.find_state (StateContainer.DescriptorHandle st)
         (ProviderMdib.states m) <> None) ->
    let m' := fold_left (fun m s => ProviderMdib.put_state s m) sts m in
    (forall st,
       In st sts ->
       ProviderMdib.find_state (StateContainer.DescriptorHandle st)
         (ProviderMdib.states m') = Some st)
    /\ (forall h,
          ~ In h (map StateContainer.DescriptorHandle sts) ->
          ProviderMdib.find_state h (ProviderMdib.states m')
          = ProviderMdib.find_state h (ProviderMdib.states m)).
Proof.
  induction sts as [| st rest IH]; intros m Hnd Hex; cbv zeta.
  - split; [intros st [] | reflexivity].
  - cbn [fold_left map] in *. inversion Hnd as [| ? ? Hnot Hnd']; subst.
    assert (Hex' : forall st',
               In st' rest ->
               ProviderMdib.find_state (StateContainer.DescriptorHandle st')
                 (ProviderMdib.states (ProviderMdib.put_state st m))
               <> None).
    { intros st' Hin. rewrite find_state_put_other; [apply Hex; now right |].
      intros Heq. apply Hnot. rewrite <- Heq. now apply in_map. }
    destruct (IH (ProviderMdib.put_state st m) Hnd' Hex') as [I1 I2].
    split.
    + intros st' [<- | Hin]; [| now apply I1].
      rewrite (I2 _ Hnot).
      destruct (ProviderMdib.find_state (StateContainer.DescriptorHandle st)
                  (ProviderMdib.states m)) as [old |] eqn:E.
      * unfold ProviderMdib.put_state. cbn [ProviderMdib.states].
        now apply (find_state_replace _ _ _ old).
      * exfalso. apply (Hex st); [now left | assumption].
    + intros h Hn. rewrite I2 by (intros Hin; apply Hn; now right).
      apply find_state_put_other. intros Heq. apply Hn. now left.
Qed.

Lemma published_annotated (create_decimal : Q -> Q)
    (generators : Dict.t _SampleArrayGenerator.t) (w w' : World)
    (st : StateContainer.t) :
  only_annotated w w' ->
  published create_decimal generators (heap w) st ->
  published create_decimal generators (heap w') st.
Proof.
  intros (_ & _ & _ & _ & _ & Hall) (g & r & b & Hg & Hc & Hb & Ha & Hv).
  destruct (Hall r b Hb) as (b' & Hb' & (A1 & _ & A3 & _)).
  exists g, r, b'. repeat split; try assumption.
  now rewrite A1, A3.
Qed.

(** X15.  An update cycle that raises nothing, with the commit of the host after
    it.  For every generator that is ON the state record of its channel in
    the host is afterwards ON and shows the current sample array of the
    generator: its samples as decimals, its determination time, and its two
    annotation lists, which are shared with the array and so hold what the
    annotation phase added.  For every generator that is not ON the state
    record and the generator are left as they were. *)
Theorem update_publishes_arrays (create_decimal : Q -> Q)
    (self : DefaultWaveformSource.t) (w : World)
    (self' : DefaultWaveformSource.t) (w' : World) :
  NoDup (Dict.keys (DefaultWaveformSource._waveform_generators self)) ->
  call create_decimal UpdateAllRealtimeSamples self w = Ok (self', w') ->
  forall h g,
    Dict.get h (DefaultWaveformSource._waveform_generators self) = Some g ->
    if _SampleArrayGenerator.is_active g
    then exists st,
           ProviderMdib.find_state h (ProviderMdib.states (mdib w')) = Some st
           /\ published create_decimal
                (DefaultWaveformSource._waveform_generators self')
                (heap w') st
    else ProviderMdib.find_state h (ProviderMdib.states (mdib w'))
         = ProviderMdib.find_state h (ProviderMdib.states (mdib w))
         /\ Dict.get h (DefaultWaveformSource._waveform_generators self')
            = Some g.
Proof.
  intros Hnd H h g Hget. cbn [call] in H.
  apply bind_ok in H. destruct H as ([self2 transaction2] & w2 & Hupd & H).
  apply bind_ok in H. destruct H as (u & w3 & Hcommit & H).
  unfold ret in H. injection H as <- <-.
  unfold DefaultWaveformSource.update_all_realtime_samples in Hupd.
  apply bind_ok in Hupd.
  destruct Hupd as ([self1 transaction1] & w1 & Hloop & Hupd).
  apply bind_ok in Hupd. destruct Hupd as (self2' & w2' & Hann & Hupd).
  unfold ret in Hupd. injection Hupd as <- <- <-.
  destruct (update_generators_states _ _ _ _ _ _ _ _ Hnd Hloop)
    as (sts & Ht & Hn & Hs & Hc).
  cbn [RtDataMdibUpdateTransaction.__init__
       RtDataMdibUpdateTransaction.rt_sample_state_updates app] in Ht.
  destruct (update_generators_inv _ _ _ _ _ _ _ _ Hnd Hloop)
    as (_ & Hm1 & _ & _ & _ & Hg).
  unfold DefaultWaveformSource._add_all_annotations in Hann.
  apply bind_ok in Hann. destruct Hann as (annotators & wa & Hann & Hr).
  unfold ret in Hr. injection Hr as <- <-.
  apply annotate_all_only_annotated in Hann. destruct Hann as [Honly _].
  pose proof Honly as (_ & _ & Hm2 & _).
  unfold RtDataMdibUpdateTransaction.commit, bind, get_mdib, set_mdib
    in Hcommit.
  injection Hcommit as _ <-. cbn [mdib heap].
  rewrite Ht, Hm2, Hm1.
  cbn [DefaultWaveformSource._waveform_generators
       DefaultWaveformSource.set_annotators].
  assert (Hex : forall st,
             In st sts ->
             ProviderMdib.find_state (StateContainer.DescriptorHandle st)
               (ProviderMdib.states (mdib w)) <> None).
  { intros st Hin. now destruct (Hs st Hin) as (_ & _ & S3 & _). }
  destruct (commit_states sts (mdib w) Hn Hex) as [C1 C2].
  destruct (_SampleArrayGenerator.is_active g) eqn:A.
  - assert (Hin : In h (Dict.keys
                          (DefaultWaveformSource._waveform_generators self))).
    { apply Dict_get_in_keys. congruence. }
    destruct (Hc h g Hget Hin A) as (st & Hst & <-).
    exists st. split; [now apply C1 |].
    destruct (Hs st Hst) as (_ & _ & _ & S4).
    eapply published_annotated; eassumption.
  - split.
    + apply C2. intros Hin. apply in_map_iff in Hin.
      destruct Hin as (st & <- & Hin).
      destruct (Hs st Hin) as (_ & (g' & S2 & S2') & _). congruence.
    + destruct (Hg h g Hget) as (g1 & G1 & _ & _ & _ & G5).
      now rewrite <- (G5 (or_intror A)).
Qed.

Lemma update_publishes_arrays_witness :
  exists self' w' st,
    call (fun s => s) UpdateAllRealtimeSamples (fst Example.annotated)
         (snd Example.annotated) = Ok (self', w')
    /\ ProviderMdib.find_state "B" (ProviderMdib.states (mdib w')) = Some st
    /\ published (fun s => s)
         (DefaultWaveformSource._waveform_generators self') (heap w') st.
Proof.
  assert (Hnd : NoDup (Dict.keys
                         (DefaultWaveformSource._waveform_generators
                            (fst Example.annotated)))).
  { vm_compute. repeat constructor; simpl; intuition discriminate. }
  eassert (Hcall : call (fun s => s) UpdateAllRealtimeSamples
                     (fst Example.annotated) (snd Example.annotated)
                   = Ok (_, _)).
  { vm_compute. reflexivity. }
  eassert (HgB : Dict.get "B"
                   (DefaultWaveformSource._waveform_generators
                      (fst Example.annotated)) = Some _).
  { vm_compute. reflexivity. }
  pose proof (update_publishes_arrays _ _ _ _ _ Hnd Hcall "B" _ HgB) as P.
  cbn [_SampleArrayGenerator.is_active ComponentActivation_eqb
       _SampleArrayGenerator._activation_state] in P.
  destruct P as (st & P1 & P2).
  eexists _, _, st. split; [exact Hcall |]. split; assumption.
Defined.
